(** * Neon solar system: gesture classifier and camera controller

    A shallow embedding of the input-to-camera control core of the
    repository: [HandController] (classifier of hand-landmark frames),
    [handleGesture] of [App], and [CameraController] / [Planet] of
    [Scene3D], followed by the properties the specification states
    about them.

    Conventions of the embedding.
    - A JavaScript [number] is a real number ([R]); arithmetic is exact.
      [Date.now()] is an integer number of milliseconds ([Z]); the few
      calls made inside one tick are one value [now].
    - A React [useRef] cell is a field of an explicit state record that
      every callback takes and returns.
    - A call of [onGesture] is the [option HandGesture] a tick returns:
      [None] means the callback was not invoked on that tick, which is
      different from invoking it with the gesture [NONE].
    - Reading a property of [undefined] throws; a tick that throws is
      [None] in the outer [option] of the classifier. *)

From Stdlib Require Import Reals Lra Lia ZArith List Bool String Sorted.
Import ListNotations.

Open Scope R_scope.

(** ** Numbers *)

Module Num.

(** [a < b] and [a > b] on JavaScript numbers, as booleans. *)
Definition ltb (a b : R) : bool := if Rlt_dec a b then true else false.
Definition gtb (a b : R) : bool := ltb b a.

(** [Math.max] and [Math.min]. *)
Definition max (a b : R) : R := Rmax a b.
Definition min (a b : R) : R := Rmin a b.

End Num.

(** ** Gestures ([HandController.tsx]) *)

Record Point2 : Type := mkPoint2 { px : R; py : R }.

(** [HandGesture]: the [type] tag with the [value] each tag is emitted
    with ([{x, y}] for rotate and focus, a number for zoom). *)
Inductive HandGesture : Type :=
| NONE
| ROTATE (value : Point2)
| ZOOM (value : R)
| FOCUS (value : Point2)
| EXIT_FOCUS.

(** One hand: the ordered landmark points the detector returns. *)
Definition Hand : Type := list Point2.

(** The three [useRef] cells of the classifier. *)
Record ClassifierState : Type := mkClassifier {
  lastHandPos : option Point2;
  lastPinchDist : option R;
  gestureHoldStart : Z
}.

(** The refs as [HandController] creates them. *)
Definition classifier_init : ClassifierState :=
  mkClassifier None None 0%Z.

(** A tick's outcome: the refs after it and the gesture handed to
    [onGesture], if the callback was invoked. *)
Definition Tick : Type := (ClassifierState * option HandGesture)%type.

Definition bind {A B : Type} (m : option A) (k : A -> option B) : option B :=
  match m with
  | Some a => k a
  | None => None
  end.

Notation "x <- m ;; k" := (bind m (fun x => k))
  (at level 61, m at next level, right associativity).

(** [landmarksList[i][j]] followed by a property read. *)
Definition landmark (landmarksList : list Hand) (i j : nat) : option Point2 :=
  bind (nth_error landmarksList i) (fun h => nth_error h j).

Definition dist2 (a b : Point2) : R :=
  sqrt ((px a - px b) ^ 2 + (py a - py b) ^ 2).

(** The two-hand branch of [processGestures] once both wrists are read. *)
Definition twoHandZoom (st : ClassifierState) (hand1 hand2 : Point2) : Tick :=
  let dist := dist2 hand1 hand2 in
  let ev :=
    match lastPinchDist st with
    | Some last =>
        let delta := dist - last in
        if Num.gtb (Rabs delta) 0.005 then Some (ZOOM (delta * 20)) else None
    | None => None
    end in
  (mkClassifier None (Some dist) (gestureHoldStart st), ev).

(** The single-hand part of [processGestures], after the finger tests. *)
Definition singleHand (now : Z) (st : ClassifierState)
    (indexExt middleExt ringExt pinkyExt : bool) (wrist indexTip : Point2) : Tick :=
  let isVictory := indexExt && middleExt && negb ringExt && negb pinkyExt in
  if isVictory then
    let ev :=
      match lastHandPos st with
      | Some last =>
          let deltaX := px wrist - px last in
          let deltaY := py wrist - py last in
          if Num.gtb (Rabs deltaX) 0.002 || Num.gtb (Rabs deltaY) 0.002
          then Some (ROTATE (mkPoint2 deltaX deltaY)) else None
      | None => None
      end in
    (mkClassifier (Some (mkPoint2 (px wrist) (py wrist))) None (gestureHoldStart st), ev)
  else
    let isPalmOpen := indexExt && middleExt && ringExt && pinkyExt in
    if isPalmOpen && (now - gestureHoldStart st >? 1000)%Z then
      (mkClassifier (lastHandPos st) None now, Some EXIT_FOCUS)
    else
      let hold := if isPalmOpen then gestureHoldStart st else now in
      let isPointing := indexExt && negb middleExt && negb ringExt && negb pinkyExt in
      if isPointing then
        (mkClassifier (Some (mkPoint2 (px wrist) (py wrist))) None hold,
         Some (FOCUS (mkPoint2 (1 - px indexTip) (py indexTip))))
      else
        (mkClassifier (Some (mkPoint2 (px wrist) (py wrist))) None hold, None).

(** [processGestures]: two hands are a zoom; otherwise the first hand is
    classified by the vertical test of its four fingers. *)
Definition processGestures (now : Z) (st : ClassifierState)
    (landmarksList : list Hand) : option Tick :=
  if Nat.eqb (List.length landmarksList) 2 then
    hand1 <- landmark landmarksList 0 0 ;;
    hand2 <- landmark landmarksList 1 0 ;;
    Some (twoHandZoom st hand1 hand2)
  else
    landmarks <- nth_error landmarksList 0 ;;
    l8 <- nth_error landmarks 8 ;;
    l6 <- nth_error landmarks 6 ;;
    l12 <- nth_error landmarks 12 ;;
    l10 <- nth_error landmarks 10 ;;
    l16 <- nth_error landmarks 16 ;;
    l14 <- nth_error landmarks 14 ;;
    l20 <- nth_error landmarks 20 ;;
    l18 <- nth_error landmarks 18 ;;
    wrist <- nth_error landmarks 0 ;;
    let indexExt := Num.ltb (py l8) (py l6) in
    let middleExt := Num.ltb (py l12) (py l10) in
    let ringExt := Num.ltb (py l16) (py l14) in
    let pinkyExt := Num.ltb (py l20) (py l18) in
    Some (singleHand now st indexExt middleExt ringExt pinkyExt wrist l8).

(** The refs after a tick of [processGestures] that threw: on the
    single-hand path the stored distance was cleared before the first
    landmark was read, on the two-hand path nothing was written yet. *)
Definition aborted (st : ClassifierState) (landmarksList : list Hand) : ClassifierState :=
  if Nat.eqb (List.length landmarksList) 2 then st
  else mkClassifier (lastHandPos st) None (gestureHoldStart st).

(** [predictWebcam] for one video sample: [ready] is the guard on the
    landmarker and the video element, [landmarks] the detection result. *)
Definition predictWebcam (ready : bool) (now : Z) (st : ClassifierState)
    (landmarks : list Hand) : option Tick :=
  if negb ready then Some (st, None)
  else if (0 <? List.length landmarks)%nat then processGestures now st landmarks
  else Some (mkClassifier None None (gestureHoldStart st), Some NONE).

(** ** The catalog ([types.ts], [constants.ts]) *)

(** [PlanetData], without the display strings ([name], [color],
    [details]) that no computation reads. *)
Record PlanetData : Type := mkPlanet {
  id : string;
  radius : R;
  distance : R;
  speed : R;
  rotationSpeed : R;
  moons : option nat;
  hasRings : bool
}.

Definition PLANET_DATA : list PlanetData := [
  mkPlanet "sun" 12 0 0 0.005 (Some 0%nat) false;
  mkPlanet "mercury" 1.5 35 1.5 0.01 (Some 0%nat) false;
  mkPlanet "venus" 2.2 55 1.2 0.008 (Some 0%nat) false;
  mkPlanet "earth" 2.4 75 1.0 0.02 (Some 1%nat) false;
  mkPlanet "mars" 1.8 95 0.8 0.018 (Some 2%nat) false;
  mkPlanet "jupiter" 6.5 150 0.4 0.04 (Some 95%nat) false;
  mkPlanet "saturn" 5.5 200 0.3 0.038 (Some 146%nat) true;
  mkPlanet "uranus" 3.5 250 0.2 0.03 (Some 27%nat) false;
  mkPlanet "neptune" 3.4 290 0.15 0.032 (Some 14%nat) false
].

(** Modelled from the spec: the [HAND] member of [ControlMode]. The
    [types.ts] at hand declares [MOUSE], [KEYBOARD] and [AUTO] only,
    while [HandController], [Scene3D] and [UIOverlay] all read
    [ControlMode.HAND]; the spec lists the four modes Pointer, Keyboard,
    Autopilot and Hand. *)
Inductive ControlMode : Type := MOUSE | KEYBOARD | AUTO | HAND.

Definition ControlMode_eqb (a b : ControlMode) : bool :=
  match a, b with
  | MOUSE, MOUSE | KEYBOARD, KEYBOARD | AUTO, AUTO | HAND, HAND => true
  | _, _ => false
  end.

(** The fields of [AppState] the control core reads. *)
Record AppState : Type := mkAppState {
  controlMode : ControlMode;
  focusedBody : option string;
  simulationSpeed : R
}.

(** JavaScript truthiness of [string | null]: [null] and the empty
    string are falsy. *)
Definition truthy (s : option string) : bool :=
  match s with
  | Some x => negb (String.eqb x EmptyString)
  | None => false
  end.

(** [PLANET_DATA.find(p => p.id === focusedBody)]. *)
Definition findPlanet (focused : option string) : option PlanetData :=
  match focused with
  | Some name => List.find (fun p => String.eqb (id p) name) PLANET_DATA
  | None => None
  end.

(** ** Vectors ([THREE.Vector3]) *)

Record Vector3 : Type := mkV3 { vx : R; vy : R; vz : R }.

Definition origin : Vector3 := mkV3 0 0 0.

(** [a.lerp(b, alpha)]: each component moves by [alpha] of the gap. *)
Definition lerp (a b : Vector3) (alpha : R) : Vector3 :=
  mkV3 (vx a + (vx b - vx a) * alpha)
       (vy a + (vy b - vy a) * alpha)
       (vz a + (vz b - vz a) * alpha).

Definition multiplyScalar (a : Vector3) (s : R) : Vector3 :=
  mkV3 (vx a * s) (vy a * s) (vz a * s).

Definition v3length (a : Vector3) : R :=
  sqrt (vx a * vx a + vy a * vy a + vz a * vz a).

(** [a.normalize()], which divides by [a.length() || 1]. *)
Definition normalize (a : Vector3) : Vector3 :=
  let len := v3length a in
  multiplyScalar a (1 / (if Req_dec_T len 0 then 1 else len)).

(** ** Orbit kinematics *)

(** Modelled after the spec's words, for comparison with the two places
    of the source that compute an orbit position:
    [angle = elapsedTime * speed * simulationSpeed * 0.2],
    [x = cos angle * distance], [z = sin angle * distance]. *)
Definition spec_position (body : PlanetData) (elapsedTime simulationSpeedMultiplier : R)
    : R * R :=
  let angle := elapsedTime * speed body * simulationSpeedMultiplier * 0.2 in
  (cos angle * distance body, sin angle * distance body).

(** The orbit part of the frame callback of [Planet]: [position] is the
    position of the planet's group, which the callback overwrites in
    [x] and [z] for a body off the centre and leaves alone otherwise. *)
Definition Planet_useFrame (data : PlanetData) (appState : AppState)
    (elapsed : R) (position : Vector3) : Vector3 :=
  let t := elapsed * speed data * simulationSpeed appState * 0.2 in
  if Num.gtb (distance data) 0 then
    mkV3 (cos t * distance data) (vy position) (sin t * distance data)
  else position.

(** [targetPos] of the focus branch of [CameraController]. *)
Definition targetPos (planet : PlanetData) (appState : AppState) (elapsed : R) : Vector3 :=
  let t := elapsed * speed planet * simulationSpeed appState * 0.2 in
  let pX := cos t * distance planet in
  let pZ := sin t * distance planet in
  mkV3 pX 0 pZ.

(** [offset] of the same branch: the camera's goal beside the body. *)
Definition offset (planet : PlanetData) (appState : AppState) (elapsed : R) : Vector3 :=
  let t := elapsed * speed planet * simulationSpeed appState * 0.2 in
  let pX := cos t * distance planet in
  let pZ := sin t * distance planet in
  mkV3 (pX + radius planet * 5) (radius planet * 3) (pZ + radius planet * 5).

(** ** The camera controller ([Scene3D.tsx]) *)

(** The camera: its position and the point of the latest [lookAt]. *)
Record Camera : Type := mkCamera {
  position : Vector3;
  lookedAt : option Vector3
}.

(** The [OrbitControls] object behind [controlsRef]. *)
Record OrbitControls : Type := mkControls {
  target : Vector3;
  enabled : bool
}.

(** The props [CameraController] renders [<OrbitControls>] with. *)
Record OrbitControlsProps : Type := mkControlsProps {
  enableDamping : bool;
  dampingFactor : R;
  enabledProp : bool;
  maxDistance : R;
  minDistance : R
}.

Definition OrbitControls_props (appState : AppState) : OrbitControlsProps :=
  mkControlsProps true 0.05 (ControlMode_eqb (controlMode appState) MOUSE) 650 10.

(** [handState.current]. *)
Record HandState : Type := mkHandState {
  rotation : Point2;
  zoom : R;
  cursor : Point2;
  isFocusing : bool
}.

(** What one [CameraController] owns: the camera, the three refs. *)
Record Controller : Type := mkController {
  camera : Camera;
  controlsRef : option OrbitControls;
  autoOrbitRef : R;
  handState : HandState
}.

(** A [gsap.to] call: the vector it animates, where to, how. *)
Inductive Tweened : Type := CameraPosition | ControlsTarget.

Record Tween : Type := mkTween {
  tweened : Tweened;
  goal : Vector3;
  duration : R;
  ease : string
}.

(** The focus effect of [CameraController], run by React when
    [focusedBody] or [controlMode] changed: the [gsap.to] calls it
    makes, in order. *)
Definition focusEffect (appState : AppState) (c : Controller) : list Tween :=
  if negb (truthy (focusedBody appState)) then
    if ControlMode_eqb (controlMode appState) AUTO then []
    else
      mkTween CameraPosition (mkV3 0 150 300) 2 "power3.inOut"
      :: match controlsRef c with
         | Some _ => [mkTween ControlsTarget (mkV3 0 0 0) 2 "power3.inOut"]
         | None => []
         end
  else [].

Section Controller.

(** [controls.update()] and [camera.translateX/Z] belong to three.js:
    the first re-poses the camera from the controls' fields and the
    pointer input it has gathered, the second moves the camera along
    one of its own axes. Both are parameters here. What the helper
    does to the camera on its own, between the callbacks of this file,
    is not part of the embedding. *)
Variable controls_update : OrbitControls -> Camera -> Camera.
Variable translateX translateZ : Camera -> R -> Camera.

Definition update (controls : option OrbitControls) (cam : Camera) : Camera :=
  match controls with
  | Some c => controls_update c cam
  | None => cam
  end.

(** The [AUTO] branch of the frame callback. *)
Definition autoFrame (delta : R) (c : Controller) : Controller :=
  let angle := autoOrbitRef c + delta * 0.05 in
  let r := 350 in
  let x := sin angle * r in
  let z := cos angle * r in
  let cam := mkCamera (lerp (position (camera c)) (mkV3 x 100 z) 0.05)
                      (Some (mkV3 0 0 0)) in
  mkController (update (controlsRef c) cam) (controlsRef c) angle (handState c).

(** The [HAND] branch. *)
Definition handFrame (gesture : HandGesture) (c : Controller) : Controller :=
  let c1 :=
    match gesture with
    | ROTATE value =>
        let speed := 5 in
        let rot := mkPoint2 (px (rotation (handState c)) + px value * speed)
                            (py (rotation (handState c)) + py value * speed) in
        let hs := mkHandState rot (zoom (handState c)) (cursor (handState c))
                              (isFocusing (handState c)) in
        let r := zoom hs in
        let theta := px rot in
        let phi := Num.max 0.1 (Num.min (PI / 2 - 0.1) (py rot + PI / 4)) in
        let x := r * sin phi * sin theta in
        let z := r * sin phi * cos theta in
        let y := r * cos phi in
        mkController
          (mkCamera (lerp (position (camera c)) (mkV3 x y z) 0.1) (Some (mkV3 0 0 0)))
          (controlsRef c) (autoOrbitRef c) hs
    | ZOOM value =>
        let z := Num.max 50 (Num.min 600 (zoom (handState c) - value)) in
        let hs := mkHandState (rotation (handState c)) z (cursor (handState c))
                              (isFocusing (handState c)) in
        let dir := normalize (position (camera c)) in
        mkController
          (mkCamera (lerp (position (camera c)) (multiplyScalar dir z) 0.1)
                    (lookedAt (camera c)))
          (controlsRef c) (autoOrbitRef c) hs
    | FOCUS value =>
        let hs := mkHandState (rotation (handState c)) (zoom (handState c))
                              (mkPoint2 (px value * 2 - 1) (- (py value * 2 - 1)))
                              (isFocusing (handState c)) in
        mkController (camera c) (controlsRef c) (autoOrbitRef c) hs
    | NONE | EXIT_FOCUS => c
    end in
  mkController (camera c1)
    (match controlsRef c1 with
     | Some ctl => Some (mkControls (target ctl) false)
     | None => None
     end)
    (autoOrbitRef c1) (handState c1).

(** The branch that follows the focused body. *)
Definition focusFrame (appState : AppState) (elapsed : R) (c : Controller) : Controller :=
  match findPlanet (focusedBody appState) with
  | Some planet =>
      match controlsRef c with
      | Some ctl =>
          let ctl' := mkControls (lerp (target ctl) (targetPos planet appState elapsed) 0.1)
                                 (enabled ctl) in
          let cam := mkCamera (lerp (position (camera c)) (offset planet appState elapsed) 0.05)
                              (lookedAt (camera c)) in
          mkController (controls_update ctl' cam) (Some ctl') (autoOrbitRef c) (handState c)
      | None => c
      end
  | None => c
  end.

(** The last branch: free pointer control. *)
Definition freeFrame (c : Controller) : Controller :=
  match controlsRef c with
  | Some ctl =>
      let ctl' := mkControls (target ctl) true in
      mkController (controls_update ctl' (camera c)) (Some ctl') (autoOrbitRef c) (handState c)
  | None => c
  end.

(** The frame callback of [CameraController]. [gestureRef] is the
    optional prop, with the gesture it holds when it is passed. *)
Definition useFrame (appState : AppState) (gestureRef : option HandGesture)
    (elapsed delta : R) (c : Controller) : Controller :=
  if ControlMode_eqb (controlMode appState) AUTO then autoFrame delta c
  else
    match ControlMode_eqb (controlMode appState) HAND, gestureRef with
    | true, Some gesture => handFrame gesture c
    | _, _ =>
        if truthy (focusedBody appState) then focusFrame appState elapsed c
        else freeFrame c
    end.

(** [handleKeyDown]: the camera after the key, and whether
    [setFocusedBody(null)] was called. *)
Definition handleKeyDown (appState : AppState) (key : string) (cam : Camera)
    : Camera * bool :=
  if negb (ControlMode_eqb (controlMode appState) KEYBOARD) then (cam, false)
  else
    let moveSpeed := 8 in
    if String.eqb key "ArrowUp" then (translateZ cam (- moveSpeed), false)
    else if String.eqb key "ArrowDown" then (translateZ cam moveSpeed, false)
    else if String.eqb key "ArrowLeft" then (translateX cam (- moveSpeed), false)
    else if String.eqb key "ArrowRight" then (translateX cam moveSpeed, false)
    else if String.eqb key "w" then
      (mkCamera (mkV3 (vx (position cam)) (vy (position cam) + moveSpeed) (vz (position cam)))
                (lookedAt cam), false)
    else if String.eqb key "s" then
      (mkCamera (mkV3 (vx (position cam)) (vy (position cam) - moveSpeed) (vz (position cam)))
                (lookedAt cam), false)
    else if String.eqb key " " then (cam, true)
    else (cam, false).

End Controller.

(** ** The application ([App.tsx]) *)

(** [handleGesture]: the new content of [gestureRef], and whether
    [setFocusedBody(null)] was called. [focused] is the [focusedBody]
    the handler closes over. *)
Definition handleGesture (focused : option string) (gesture : HandGesture)
    : HandGesture * bool :=
  (gesture,
   match gesture with
   | EXIT_FOCUS => truthy focused
   | _ => false
   end).

(** Everything the control core keeps between callbacks. *)
Record World : Type := mkWorld {
  appState : AppState;
  gestureRef : HandGesture;
  classifier : ClassifierState;
  (** the video stream runs and [predictWebcam] is scheduled *)
  sampling : bool;
  (** [focusedBody] as the scheduled [predictWebcam] closes over it *)
  handlerFocus : option string;
  controller : Controller;
  (** the [gsap.to] calls made so far, newest first *)
  tweens : list Tween
}.

Inductive Event : Type :=
| Frame (elapsed delta : R)
| VideoSample (now : Z) (landmarks : list Hand)
| SetControlMode (mode : ControlMode)
| SetFocusedBody (focused : option string)
| SetSimulationSpeed (s : R)
| KeyDown (key : string).

Definition focus_eqb (a b : option string) : bool :=
  match a, b with
  | Some x, Some y => String.eqb x y
  | None, None => true
  | _, _ => false
  end.

(** [stopWebcam]: the stream is stopped and the scheduled sample
    cancelled. *)
Definition stopWebcam (w : World) : World :=
  mkWorld (appState w) (gestureRef w) (classifier w) false (handlerFocus w)
          (controller w) (tweens w).

(** [startWebcam], the camera being granted: the stream runs and
    [predictWebcam] is scheduled, with the handler of the current
    render. *)
Definition startWebcam (w : World) : World :=
  mkWorld (appState w) (gestureRef w) (classifier w) true (focusedBody (appState w))
          (controller w) (tweens w).

(** The effect of [HandController] on [controlMode], the landmarker
    being loaded. *)
Definition webcamEffect (w : World) : World :=
  if ControlMode_eqb (controlMode (appState w)) HAND then startWebcam w
  else stopWebcam w.

(** React after a state setter: the new [appState] is rendered and the
    effects whose dependencies changed run.
    - The [enabled] prop of [<OrbitControls>] is written to the object
      when its value differs from the previous render's.
    - [CameraController]'s focus effect depends on [focusedBody] and
      [controlMode].
    - [HandController]'s effect depends on [controlMode]. *)
Definition render (next : AppState) (w : World) : World :=
  let prev := appState w in
  let modeChanged := negb (ControlMode_eqb (controlMode prev) (controlMode next)) in
  let focusChanged := negb (focus_eqb (focusedBody prev) (focusedBody next)) in
  let started :=
    if modeChanged || focusChanged then focusEffect next (controller w) else [] in
  let c := controller w in
  let controls :=
    match controlsRef c with
    | Some ctl =>
        if Bool.eqb (enabledProp (OrbitControls_props prev))
                    (enabledProp (OrbitControls_props next))
        then Some ctl
        else Some (mkControls (target ctl) (enabledProp (OrbitControls_props next)))
    | None => None
    end in
  let w1 := mkWorld next (gestureRef w) (classifier w) (sampling w) (handlerFocus w)
                    (mkController (camera c) controls (autoOrbitRef c) (handState c))
                    (rev started ++ tweens w) in
  if modeChanged then webcamEffect w1 else w1.

Definition setFocusedBody (focused : option string) (w : World) : World :=
  render (mkAppState (controlMode (appState w)) focused (simulationSpeed (appState w))) w.

Definition setControlMode (mode : ControlMode) (w : World) : World :=
  render (mkAppState mode (focusedBody (appState w)) (simulationSpeed (appState w))) w.

Definition setSimulationSpeed (s : R) (w : World) : World :=
  render (mkAppState (controlMode (appState w)) (focusedBody (appState w)) s) w.

Definition with_controller (c : Controller) (w : World) : World :=
  mkWorld (appState w) (gestureRef w) (classifier w) (sampling w) (handlerFocus w)
          c (tweens w).

(** [onGesture(gesture)] as the scheduled [predictWebcam] calls it. *)
Definition onGesture (gesture : HandGesture) (w : World) : World :=
  let '(g, reset) := handleGesture (handlerFocus w) gesture in
  let w1 := mkWorld (appState w) g (classifier w) (sampling w) (handlerFocus w)
                    (controller w) (tweens w) in
  if reset then setFocusedBody None w1 else w1.

Section App.

Variable controls_update : OrbitControls -> Camera -> Camera.
Variable translateX translateZ : Camera -> R -> Camera.

(** One callback of the running application. A video sample is taken
    only while the webcam loop is scheduled; a sample that throws
    leaves the loop unscheduled, with the refs as [aborted] gives them.
    The [gsap.to] calls are logged in [tweens] and not played: while a
    transition runs, gsap writes [camera.position] and the controls'
    [target] between the callbacks, and [OrbitControls.update] may move
    the target when the user pans. What is stated below over several
    callbacks is therefore about the state that only these callbacks
    write (the refs, the hand state, the orbit angle, the [enabled]
    flag, the log itself); the camera and the target are described one
    callback at a time. *)
Definition step (w : World) (e : Event) : World :=
  match e with
  | Frame elapsed delta =>
      with_controller
        (useFrame controls_update (appState w) (Some (gestureRef w)) elapsed delta
                  (controller w)) w
  | VideoSample now landmarks =>
      if sampling w then
        match predictWebcam true now (classifier w) landmarks with
        | Some (st, ev) =>
            let w1 := mkWorld (appState w) (gestureRef w) st (sampling w)
                              (handlerFocus w) (controller w) (tweens w) in
            match ev with
            | Some gesture => onGesture gesture w1
            | None => w1
            end
        | None =>
            mkWorld (appState w) (gestureRef w) (aborted (classifier w) landmarks) false
                    (handlerFocus w) (controller w) (tweens w)
        end
      else w
  | SetControlMode mode => setControlMode mode w
  | SetFocusedBody focused => setFocusedBody focused w
  | SetSimulationSpeed s => setSimulationSpeed s w
  | KeyDown key =>
      let c := controller w in
      let '(cam, reset) := handleKeyDown translateX translateZ (appState w) key (camera c) in
      let w1 := with_controller
                  (mkController cam (controlsRef c) (autoOrbitRef c) (handState c)) w in
      if reset then setFocusedBody None w1 else w1
  end.

Definition run (w : World) (events : list Event) : World :=
  fold_left step events w.

End App.

(** The application once mounted: pointer mode, no focus, speed 1, the
    camera at the overview pose, the controls created with their
    props, and the focus effect run once. *)
Definition appState_init : AppState := mkAppState MOUSE None 1.

Definition controller_init : Controller :=
  mkController
    (mkCamera (mkV3 0 150 300) None)
    (Some (mkControls (mkV3 0 0 0) (enabledProp (OrbitControls_props appState_init))))
    0
    (mkHandState (mkPoint2 0 0) 300 (mkPoint2 0 0) false).

Definition world_init : World :=
  mkWorld appState_init NONE classifier_init false None controller_init
          (rev (focusEffect appState_init controller_init)).

(** ** Runs and sample data used by the statements below *)

(** The classifier over a sequence of video samples, each with its
    timestamp: the timestamped outcome of every tick. A tick that
    throws ends the sample loop. *)
Fixpoint classify (st : ClassifierState) (samples : list (Z * list Hand))
    : list (Z * option HandGesture) :=
  match samples with
  | [] => []
  | (now, landmarks) :: rest =>
      match predictWebcam true now st landmarks with
      | Some (st', ev) => (now, ev) :: classify st' rest
      | None => []
      end
  end.

(** The four finger tests of [processGestures] on one hand: index,
    middle, ring and pinky extended. *)
Definition fingerStates (landmarks : Hand) : option (bool * bool * bool * bool) :=
  l8 <- nth_error landmarks 8 ;;
  l6 <- nth_error landmarks 6 ;;
  l12 <- nth_error landmarks 12 ;;
  l10 <- nth_error landmarks 10 ;;
  l16 <- nth_error landmarks 16 ;;
  l14 <- nth_error landmarks 14 ;;
  l20 <- nth_error landmarks 20 ;;
  l18 <- nth_error landmarks 18 ;;
  Some (Num.ltb (py l8) (py l6), Num.ltb (py l12) (py l10),
        Num.ltb (py l16) (py l14), Num.ltb (py l20) (py l18)).

(** [isPalmOpen] and [isVictory] of [processGestures]. *)
Definition isPalmOpen (landmarks : Hand) : bool :=
  match fingerStates landmarks with
  | Some (indexExt, middleExt, ringExt, pinkyExt) =>
      indexExt && middleExt && ringExt && pinkyExt
  | None => false
  end.

Definition isVictory (landmarks : Hand) : bool :=
  match fingerStates landmarks with
  | Some (indexExt, middleExt, ringExt, pinkyExt) =>
      indexExt && middleExt && negb ringExt && negb pinkyExt
  | None => false
  end.

(** The hand the single-hand part of [processGestures] classifies: the
    first one, unless exactly two are detected. *)
Definition singleHandOf (landmarksList : list Hand) : option Hand :=
  if Nat.eqb (List.length landmarksList) 2 then None else nth_error landmarksList 0.



(** A 21-landmark hand in a given pose: the wrist at [wrist], every
    middle joint at height 0.5, a fingertip at height 0.2 when the
    finger is extended and 0.8 when it is curled. *)
Definition poseHand (wrist : Point2) (index middle ring pinky : bool) : Hand :=
  let joint := mkPoint2 (px wrist) 0.5 in
  let tip (ext : bool) := mkPoint2 (px wrist) (if ext then 0.2 else 0.8) in
  [wrist; joint; joint; joint; joint;
   joint; joint; joint; tip index;
   joint; joint; joint; tip middle;
   joint; joint; joint; tip ring;
   joint; joint; joint; tip pinky].

(** A hand with its wrist at [(x, 0)] and every finger curled. *)
Definition handAt (x : R) : Hand := poseHand (mkPoint2 x 0) false false false false.

(** Three poses of one hand, the wrist low in the middle of the image. *)
Definition fist : Hand := poseHand (mkPoint2 0.5 0.9) false false false false.
Definition victory : Hand := poseHand (mkPoint2 0.5 0.9) true true false false.
Definition openPalm : Hand := poseHand (mkPoint2 0.5 0.9) true true true true.




(** The position of a planet's group after a sequence of frames, each
    with the [appState] it was rendered with and its elapsed time. The
    group is created at the origin. *)
Definition Planet_frames (data : PlanetData) (frames : list (AppState * R)) : Vector3 :=
  fold_left (fun pos f => Planet_useFrame data (fst f) (snd f) pos) frames origin.

(** The pointer helper left out: the camera as the frame code posed it. *)
Definition no_update (ctl : OrbitControls) (cam : Camera) : Camera := cam.
Definition no_translate (cam : Camera) (d : R) : Camera := cam.

(** ** The rest of [Scene3D.tsx] and [UIOverlay.tsx] *)

(** The frame callback of [Moon]: the moon's position inside its
    planet's group, [x] and [z] overwritten every frame. *)
Definition Moon_useFrame (distance speed : R) (appState : AppState)
    (elapsed : R) (position : Vector3) : Vector3 :=
  let t := elapsed * speed * simulationSpeed appState * 0.5 in
  mkV3 (cos t * distance) (vy position) (sin t * distance).

(** [data.moons && data.moons > 0], the test under which [Planet]
    renders a [Moon]. *)
Definition rendersMoon (data : PlanetData) : bool :=
  match moons data with
  | Some n => (0 <? n)%nat
  | None => false
  end.

(** The [Moon] that [Planet] renders: [distance = radius * 2.5],
    [speed = 2]. *)
Definition Planet_moon (data : PlanetData) (appState : AppState)
    (elapsed : R) (position : Vector3) : Vector3 :=
  Moon_useFrame (radius data * 2.5) 2 appState elapsed position.

(** [a || b] on numbers: [b] when [a] is 0. *)
Definition orElse (a b : R) : R := if Req_dec_T a 0 then b else a.

(** The rotation part of the frame callback of [Planet]: the new
    [rotation.y] of the particle shell. *)
Definition Planet_rotation (data : PlanetData) (appState : AppState) (rotationY : R) : R :=
  rotationY + rotationSpeed data * orElse (simulationSpeed appState) 1.

(** [appState.particleDensity]. *)
Inductive ParticleDensity : Type := LOW | MEDIUM | HIGH.

Definition multipliers (q : ParticleDensity) : R :=
  match q with
  | LOW => 0.5
  | MEDIUM => 1
  | HIGH => 2
  end.

(** [particleCount] of [Planet]; [Math.floor] is [Int_part]. *)
Definition particleCount (isMobile : bool) (particleDensity : ParticleDensity)
    (data : PlanetData) : Z :=
  let base := if isMobile then 200 else 800 in
  Int_part (base * multipliers particleDensity * radius data).

(** [activePlanet] of [UIOverlay]: the body whose panel is shown. *)
Definition activePlanet (appState : AppState) : option PlanetData :=
  if truthy (focusedBody appState) then findPlanet (focusedBody appState) else None.

Section EarlierController.

Variable controls_update : OrbitControls -> Camera -> Camera.

(** The frame callback of the [CameraController] that has no hand
    mode (the earlier [Scene3D.tsx]): its [AUTO] and focus branches
    read as [autoFrame] and [focusFrame] do, its last branch only
    calls [update]. *)
Definition useFrame_v1 (appState : AppState) (elapsed delta : R) (c : Controller)
    : Controller :=
  if ControlMode_eqb (controlMode appState) AUTO then autoFrame controls_update delta c
  else if truthy (focusedBody appState) then focusFrame controls_update appState elapsed c
  else
    match controlsRef c with
    | Some ctl =>
        mkController (controls_update ctl (camera c)) (Some ctl) (autoOrbitRef c) (handState c)
    | None => c
    end.

End EarlierController.

(** ** The one-hand classifier ([components/HandController.tsx]) *)

Module V1.

(** [landmarks[a].y < landmarks[b].y] and [landmarks[a].y > landmarks[b].y]. *)
Definition above (landmarks : Hand) (a b : nat) : option bool :=
  la <- nth_error landmarks a ;;
  lb <- nth_error landmarks b ;;
  Some (Num.ltb (py la) (py lb)).

Definition below (landmarks : Hand) (a b : nat) : option bool :=
  la <- nth_error landmarks a ;;
  lb <- nth_error landmarks b ;;
  Some (Num.gtb (py la) (py lb)).

(** [p && q]: [q] is evaluated, and can throw, only when [p] holds. *)
Definition andAlso (p q : option bool) : option bool :=
  b <- p ;; if b then q else Some false.

Definition isPalmOpen (landmarks : Hand) : option bool :=
  andAlso (above landmarks 8 6)
    (andAlso (above landmarks 12 10)
       (andAlso (above landmarks 16 14) (above landmarks 20 18))).

Definition isFist (landmarks : Hand) : option bool :=
  andAlso (below landmarks 8 6)
    (andAlso (below landmarks 12 10)
       (andAlso (below landmarks 16 14) (below landmarks 20 18))).

(** The pinch branch, taken when thumb and index tips are closer
    than 0.05: the first tick stores the pinch, the later ones zoom by
    the vertical movement of the pinch point. *)
Definition pinch (st : ClassifierState) (hold : Z) (pinchDist : R)
    (thumbTip indexTip : Point2) : Tick :=
  match lastPinchDist st with
  | Some last =>
      let y := (py thumbTip + py indexTip) / 2 in
      let ev :=
        match lastHandPos st with
        | Some pos =>
            let deltaY := py pos - y in
            if Num.gtb (Rabs deltaY) 0.01 then Some (ZOOM (deltaY * 5)) else None
        | None => None
        end in
      (mkClassifier (Some (mkPoint2 ((px thumbTip + px indexTip) / 2) y)) (Some last) hold, ev)
  | None =>
      (mkClassifier
         (Some (mkPoint2 ((px thumbTip + px indexTip) / 2) ((py thumbTip + py indexTip) / 2)))
         (Some pinchDist) hold,
       None)
  end.

(** What follows the pinch test when the tips are apart: a fist
    rotates, anything else points. *)
Definition fistOrPoint (st : ClassifierState) (hold : Z) (fist : bool)
    (wrist indexTip : Point2) : Tick :=
  if fist then
    let ev :=
      match lastHandPos st with
      | Some last =>
          let deltaX := px wrist - px last in
          let deltaY := py wrist - py last in
          if Num.gtb (Rabs deltaX) 0.005 || Num.gtb (Rabs deltaY) 0.005
          then Some (ROTATE (mkPoint2 deltaX deltaY)) else None
      | None => None
      end in
    (mkClassifier (Some (mkPoint2 (px wrist) (py wrist))) None hold, ev)
  else
    (mkClassifier (Some (mkPoint2 (px wrist) (py wrist))) None hold,
     Some (FOCUS (mkPoint2 (1 - px indexTip) (py indexTip)))).

(** [processGestures] on the landmarks of the one hand. *)
Definition processGestures (now : Z) (st : ClassifierState) (landmarks : Hand)
    : option Tick :=
  thumbTip <- nth_error landmarks 4 ;;
  indexTip <- nth_error landmarks 8 ;;
  let pinchDist := dist2 thumbTip indexTip in
  palm <- isPalmOpen landmarks ;;
  fist <- isFist landmarks ;;
  if palm && negb fist && (now - gestureHoldStart st >? 1000)%Z then
    Some (mkClassifier (lastHandPos st) (lastPinchDist st) now, Some EXIT_FOCUS)
  else
    let hold := if palm && negb fist then gestureHoldStart st else now in
    if Num.ltb pinchDist 0.05 then Some (pinch st hold pinchDist thumbTip indexTip)
    else
      wrist <- nth_error landmarks 0 ;;
      Some (fistOrPoint st hold fist wrist indexTip).

(** [predictWebcam]: the first detected hand is classified. *)
Definition predictWebcam (ready : bool) (now : Z) (st : ClassifierState)
    (landmarks : list Hand) : option Tick :=
  if negb ready then Some (st, None)
  else
    match landmarks with
    | hand :: _ => processGestures now st hand
    | [] => Some (mkClassifier None None (gestureHoldStart st), Some NONE)
    end.

(** The classifier over a sequence of timestamped video samples. *)
Fixpoint classify (st : ClassifierState) (samples : list (Z * list Hand))
    : list (Z * option HandGesture) :=
  match samples with
  | [] => []
  | (now, landmarks) :: rest =>
      match predictWebcam true now st landmarks with
      | Some (st', ev) => (now, ev) :: classify st' rest
      | None => []
      end
  end.

End V1.

(** A 21-landmark hand with every landmark at [(0.5, y)]: thumb and
    index tips touch. *)
Definition pinchHand (y : R) : Hand := repeat (mkPoint2 0.5 y) 21.

(** A list of [(elapsed, delta)] pairs as frame events, and the time
    the frames span. *)
Definition asFrames (frames : list (R * R)) : list Event :=
  map (fun f => Frame (fst f) (snd f)) frames.

Definition totalDelta (frames : list (R * R)) : R :=
  fold_right (fun f acc => snd f + acc) 0 frames.

(** The stored gesture has no effect on the camera pose. *)
Definition poseless (gesture : HandGesture) : Prop :=
  match gesture with
  | NONE | EXIT_FOCUS | FOCUS _ => True
  | ROTATE _ | ZOOM _ => False
  end.

(** ** Invariants of the running application *)

(** What holds of the pointer helper in every state the application
    reaches: it is mounted, and in [MOUSE] mode it is enabled. *)
Definition pointer_ready (w : World) : Prop :=
  exists ctl, controlsRef (controller w) = Some ctl
              /\ (controlMode (appState w) = MOUSE -> enabled ctl = true).

(** Video samples are taken in [HAND] mode only. *)
Definition sampling_in_hand_mode (w : World) : Prop :=
  sampling w = true -> controlMode (appState w) = HAND.

(** ** Proof automation *)

(** Bounds on [Rabs] of a concrete difference. *)
Ltac solve_abs := unfold Rabs; destruct (Rcase_abs _); lra.

(** ** Facts about numbers and vectors *)

Lemma ltb_true (a b : R) : a < b -> Num.ltb a b = true.
Proof. intros H. unfold Num.ltb. destruct (Rlt_dec a b); [reflexivity | contradiction]. Qed.

Lemma ltb_false (a b : R) : b <= a -> Num.ltb a b = false.
Proof. intros H. unfold Num.ltb. destruct (Rlt_dec a b); [lra | reflexivity]. Qed.

Lemma gtb_true (a b : R) : a > b -> Num.gtb a b = true.
Proof. intros H. apply ltb_true. lra. Qed.

Lemma gtb_false (a b : R) : a <= b -> Num.gtb a b = false.
Proof. intros H. apply ltb_false. lra. Qed.

Lemma clamp_bounds (lo hi x : R) :
  lo <= hi -> lo <= Num.max lo (Num.min hi x) <= hi.
Proof.
  intros H. unfold Num.max, Num.min, Rmax, Rmin.
  destruct (Rle_dec hi x); destruct (Rle_dec lo _); lra.
Qed.

Lemma dist2_on_axis (a b : R) : a <= b -> dist2 (mkPoint2 a 0) (mkPoint2 b 0) = b - a.
Proof.
  intros H. unfold dist2. cbn [px py].
  replace ((a - b) ^ 2 + (0 - 0) ^ 2) with (Rsqr (b - a)) by (unfold Rsqr; ring).
  apply sqrt_Rsqr. lra.
Qed.

Lemma mode_eqb_eq (a b : ControlMode) : ControlMode_eqb a b = true <-> a = b.
Proof. destruct a, b; cbn; split; intros H; try reflexivity; discriminate. Qed.

Lemma mode_eqb_refl (a : ControlMode) : ControlMode_eqb a a = true.
Proof. destruct a; reflexivity. Qed.

(** ** Rendering *)

Lemma render_appState (next : AppState) (w : World) : appState (render next w) = next.
Proof.
  unfold render, webcamEffect.
  destruct (negb _); [destruct (ControlMode_eqb _ HAND)|]; reflexivity.
Qed.

Lemma render_gestureRef (next : AppState) (w : World) :
  gestureRef (render next w) = gestureRef w.
Proof.
  unfold render, webcamEffect.
  destruct (negb _); [destruct (ControlMode_eqb _ HAND)|]; reflexivity.
Qed.

Lemma render_controller (next : AppState) (w : World) :
  controller (render next w)
  = mkController
      (camera (controller w))
      (match controlsRef (controller w) with
       | Some ctl =>
           if Bool.eqb (enabledProp (OrbitControls_props (appState w)))
                       (enabledProp (OrbitControls_props next))
           then Some ctl
           else Some (mkControls (target ctl) (enabledProp (OrbitControls_props next)))
       | None => None
       end)
      (autoOrbitRef (controller w)) (handState (controller w)).
Proof.
  unfold render, webcamEffect.
  destruct (negb _); [destruct (ControlMode_eqb _ HAND)|]; reflexivity.
Qed.

Lemma render_tweens (next : AppState) (w : World) :
  tweens (render next w)
  = rev (if negb (ControlMode_eqb (controlMode (appState w)) (controlMode next))
            || negb (focus_eqb (focusedBody (appState w)) (focusedBody next))
         then focusEffect next (controller w) else [])
    ++ tweens w.
Proof.
  unfold render, webcamEffect.
  destruct (negb (ControlMode_eqb _ _)); [destruct (ControlMode_eqb _ HAND)|]; reflexivity.
Qed.

(** ** The gesture classifier *)

Lemma processGestures_two_hands (now : Z) (st : ClassifierState)
    (w1 w2 : Point2) (r1 r2 : Hand) :
  processGestures now st [w1 :: r1; w2 :: r2] = Some (twoHandZoom st w1 w2).
Proof. reflexivity. Qed.

Lemma twoHandZoom_event (st : ClassifierState) (w1 w2 : Point2) :
  snd (twoHandZoom st w1 w2) = None
  \/ exists old, lastPinchDist st = Some old
       /\ Rabs (dist2 w1 w2 - old) > 0.005
       /\ snd (twoHandZoom st w1 w2) = Some (ZOOM ((dist2 w1 w2 - old) * 20)).
Proof.
  unfold twoHandZoom. destruct (lastPinchDist st) as [old|]; cbn [snd]; [|now left].
  destruct (Num.gtb (Rabs (dist2 w1 w2 - old)) 0.005) eqn:E; [|now left].
  right. exists old. repeat split.
  unfold Num.gtb, Num.ltb in E. destruct (Rlt_dec _ _); [lra | discriminate].
Qed.


Lemma singleHand_fresh (now : Z) (st : ClassifierState)
    (i m r p : bool) (wrist tip : Point2) :
  lastHandPos st = None ->
  forall v z, snd (singleHand now st i m r p wrist tip) <> Some (ROTATE v)
              /\ snd (singleHand now st i m r p wrist tip) <> Some (ZOOM z).
Proof.
  intros H v z. unfold singleHand. rewrite H.
  destruct i, m, r, p; cbn [andb negb orb];
    repeat match goal with
           | |- context [if ?b then _ else _] => destruct b eqn:?
           end;
    cbn [snd]; split; discriminate.
Qed.

(** A tick on one or more hands, none of them throwing, is either the
    two-hand branch or the single-hand branch. *)
Lemma processGestures_cases (now : Z) (st : ClassifierState)
    (landmarksList : list Hand) (out : Tick) :
  processGestures now st landmarksList = Some out ->
  (exists w1 w2, out = twoHandZoom st w1 w2)
  \/ (exists i m r p wrist tip, out = singleHand now st i m r p wrist tip).
Proof.
  unfold processGestures. destruct (Nat.eqb _ 2).
  - destruct (landmark landmarksList 0 0) as [w1|]; cbn [bind]; [|discriminate].
    destruct (landmark landmarksList 1 0) as [w2|]; cbn [bind]; [|discriminate].
    intros H. injection H as <-. left. eauto.
  - destruct (nth_error landmarksList 0) as [h|]; cbn [bind]; [|discriminate].
    repeat match goal with
           | |- context [bind (nth_error h ?k)] =>
               destruct (nth_error h k); cbn [bind]; [|discriminate]
           end.
    intros H. injection H as <-. right. do 6 eexists. reflexivity.
Qed.

(** C10. A tick with no hand detected calls [onGesture] with [NONE] and
    clears both retained positions; it leaves a state on which another
    such tick changes nothing, and from which the next tick, whatever
    it detects, emits neither a rotation nor a zoom (there is no stored
    position or distance to take a delta from). *)

Theorem no_hand_tick_rests (now : Z) (st : ClassifierState) :
  predictWebcam true now st []
    = Some (mkClassifier None None (gestureHoldStart st), Some NONE)
  /\ (forall now',
        predictWebcam true now' (mkClassifier None None (gestureHoldStart st)) []
          = Some (mkClassifier None None (gestureHoldStart st), Some NONE))
  /\ (forall now' landmarks st' ev v z,
        predictWebcam true now' (mkClassifier None None (gestureHoldStart st)) landmarks
          = Some (st', ev) ->
        ev <> Some (ROTATE v) /\ ev <> Some (ZOOM z)).
Proof.
  split; [reflexivity|]. split; [reflexivity|].
  intros now' landmarks st' ev v z. unfold predictWebcam. cbn [negb].
  destruct (0 <? List.length landmarks)%nat.
  - intros H. apply processGestures_cases in H.
    destruct H as [(w1 & w2 & H) | (i & m & r & p & wrist & tip & H)].
    + unfold twoHandZoom in H. cbn [lastPinchDist] in H.
      injection H as _ ->. split; discriminate.
    + pose proof (singleHand_fresh now' (mkClassifier None None (gestureHoldStart st))
                    i m r p wrist tip eq_refl v z) as F.
      rewrite <- H in F. exact F.
  - intros H. injection H as _ <-. split; discriminate.
Qed.

Lemma no_hand_tick_rests_witness :
  predictWebcam true 40 (mkClassifier (Some (mkPoint2 0.5 0.9)) (Some 0.10) 0) []
  = Some (mkClassifier None None 0, Some NONE).
Proof.
  exact (proj1 (no_hand_tick_rests 40 (mkClassifier (Some (mkPoint2 0.5 0.9)) (Some 0.10) 0))).
Defined.

(** C3, as amended. On a tick with two hands and a stored two-hand
    distance, the classifier stores the new wrist distance and clears
    the single-hand position; it calls [onGesture] with
    [ZOOM ((new - old) * 20)] when [|new - old| > 0.005], and does not
    call it at all otherwise. From 0.10 to 0.13 the gesture is
    [ZOOM 0.6], positive. *)
Theorem two_hand_zoom (now : Z) (st : ClassifierState)
    (w1 w2 : Point2) (r1 r2 : Hand) (old : R) :
  lastPinchDist st = Some old ->
  exists ev,
    predictWebcam true now st [w1 :: r1; w2 :: r2]
      = Some (mkClassifier None (Some (dist2 w1 w2)) (gestureHoldStart st), ev)
    /\ (Rabs (dist2 w1 w2 - old) > 0.005 ->
        ev = Some (ZOOM ((dist2 w1 w2 - old) * 20)))
    /\ (Rabs (dist2 w1 w2 - old) <= 0.005 -> ev = None)
    /\ (old = 0.10 -> dist2 w1 w2 = 0.13 ->
        exists v, ev = Some (ZOOM v) /\ v = 0.6 /\ v > 0).
Proof.
  intros Hold. unfold predictWebcam. cbn [negb List.length Nat.ltb Nat.leb].
  rewrite processGestures_two_hands. unfold twoHandZoom. rewrite Hold.
  eexists. split; [reflexivity|]. split; [|split].
  - intros H. rewrite gtb_true by exact H. reflexivity.
  - intros H. rewrite gtb_false by exact H. reflexivity.
  - intros -> ->. rewrite gtb_true by solve_abs.
    eexists. split; [reflexivity|]. lra.
Qed.

Lemma two_hand_zoom_witness :
  lastPinchDist (mkClassifier None (Some 0.10) 0) = Some 0.10
  /\ dist2 (mkPoint2 0 0) (mkPoint2 0.13 0) = 0.13
  /\ exists ev v,
       predictWebcam true 40 (mkClassifier None (Some 0.10) 0) [handAt 0; handAt 0.13]
       = Some (mkClassifier None (Some (dist2 (mkPoint2 0 0) (mkPoint2 0.13 0))) 0, ev)
       /\ ev = Some (ZOOM v) /\ v = 0.6 /\ v > 0.
Proof.
  assert (D : dist2 (mkPoint2 0 0) (mkPoint2 0.13 0) = 0.13).
  { rewrite dist2_on_axis by lra. lra. }
  split; [reflexivity|]. split; [exact D|].
  destruct (two_hand_zoom 40 (mkClassifier None (Some 0.10) 0)
              (mkPoint2 0 0) (mkPoint2 0.13 0)
              (tl (handAt 0)) (tl (handAt 0.13)) 0.10 eq_refl)
    as (ev & E & _ & _ & S).
  destruct (S eq_refl D) as (v & Hv & Hq & Hp).
  exists ev, v. split; [exact E|]. split; [exact Hv|]. split; [exact Hq | exact Hp].
Defined.

(** C3 as stated fails where it says the classifier emits [NONE] below
    the dead zone: with a stored distance of 0.10 and the wrists still
    0.10 apart, the tick returns without calling [onGesture]. *)
Lemma two_hand_still_emits_nothing :
  lastPinchDist (mkClassifier None (Some 0.10) 0) = Some 0.10
  /\ Rabs (dist2 (mkPoint2 0 0) (mkPoint2 0.10 0) - 0.10) <= 0.005
  /\ predictWebcam true 40 (mkClassifier None (Some 0.10) 0) [handAt 0; handAt 0.10]
       = Some (mkClassifier None (Some (dist2 (mkPoint2 0 0) (mkPoint2 0.10 0))) 0, None)
  /\ forall st',
       predictWebcam true 40 (mkClassifier None (Some 0.10) 0) [handAt 0; handAt 0.10]
         <> Some (st', Some NONE).
Proof.
  assert (D : Rabs (dist2 (mkPoint2 0 0) (mkPoint2 0.10 0) - 0.10) <= 0.005).
  { rewrite dist2_on_axis by lra. solve_abs. }
  assert (E : predictWebcam true 40 (mkClassifier None (Some 0.10) 0) [handAt 0; handAt 0.10]
              = Some (mkClassifier None (Some (dist2 (mkPoint2 0 0) (mkPoint2 0.10 0))) 0, None)).
  { unfold predictWebcam, handAt, poseHand. cbn [negb List.length Nat.ltb Nat.leb].
    rewrite processGestures_two_hands. unfold twoHandZoom.
    cbn [lastPinchDist gestureHoldStart]. rewrite gtb_false by exact D. reflexivity. }
  split; [reflexivity|]. split; [exact D|]. split; [exact E|].
  intros st'. rewrite E. intros H. discriminate H.
Qed.

(** *** Single-hand ticks and the exit-focus hold *)

Lemma processGestures_single (now : Z) (st : ClassifierState)
    (landmarksList : list Hand) (hand : Hand) (out : Tick) :
  singleHandOf landmarksList = Some hand ->
  processGestures now st landmarksList = Some out ->
  exists i m r p wrist tip,
    fingerStates hand = Some (i, m, r, p)
    /\ out = singleHand now st i m r p wrist tip.
Proof.
  unfold singleHandOf, processGestures, fingerStates.
  destruct (Nat.eqb _ 2); [discriminate|].
  intros ->. cbn [bind].
  repeat match goal with
         | |- context [bind (nth_error hand ?k)] =>
             destruct (nth_error hand k); cbn [bind]; [|discriminate]
         end.
  intros H. injection H as <-. do 6 eexists. split; reflexivity.
Qed.


Lemma predictWebcam_hands (now : Z) (st : ClassifierState) (landmarksList : list Hand)
    (hand : Hand) :
  singleHandOf landmarksList = Some hand ->
  predictWebcam true now st landmarksList = processGestures now st landmarksList.
Proof.
  unfold singleHandOf, predictWebcam. cbn [negb].
  destruct landmarksList; [cbn; discriminate | reflexivity].
Qed.








(** *** A concrete run *)

Lemma fingerStates_pose (w : Point2) (i m r p : bool) :
  fingerStates (poseHand w i m r p) = Some (i, m, r, p).
Proof.
  unfold fingerStates, poseHand. cbn [nth_error bind py].
  assert (T : forall b : bool, Num.ltb (if b then 0.2 else 0.8) 0.5 = b).
  { intros [|]; [apply ltb_true | apply ltb_false]; lra. }
  rewrite !T. reflexivity.
Qed.

Lemma predictWebcam_pose (now : Z) (st : ClassifierState) (w : Point2) (i m r p : bool) :
  predictWebcam true now st [poseHand w i m r p]
  = Some (singleHand now st i m r p w (mkPoint2 (px w) (if i then 0.2 else 0.8))).
Proof.
  unfold predictWebcam, processGestures, poseHand.
  cbn [negb List.length Nat.ltb Nat.leb Nat.eqb nth_error bind py].
  assert (T : forall b : bool, Num.ltb (if b then 0.2 else 0.8) 0.5 = b).
  { intros [|]; [apply ltb_true | apply ltb_false]; lra. }
  rewrite !T. reflexivity.
Qed.







(** ** Orbit kinematics *)

Lemma catalog_distance_nonneg (data : PlanetData) :
  In data PLANET_DATA -> 0 <= distance data.
Proof.
  unfold PLANET_DATA. cbn [In].
  intros H; repeat (destruct H as [<- | H]; [cbn [distance]; lra|]); contradiction.
Qed.

Lemma Planet_frames_snoc (data : PlanetData) (frames : list (AppState * R))
    (a : AppState) (elapsed : R) :
  Planet_frames data (frames ++ [(a, elapsed)])
  = Planet_useFrame data a elapsed (Planet_frames data frames).
Proof. unfold Planet_frames. rewrite fold_left_app. reflexivity. Qed.

(** The central body is never moved. *)
Lemma Planet_frames_centre (data : PlanetData) (frames : list (AppState * R)) :
  distance data <= 0 -> Planet_frames data frames = origin.
Proof.
  intros H. unfold Planet_frames. generalize origin as pos.
  induction frames as [|[a e] rest IH]; intros pos; cbn [fold_left fst snd]; [reflexivity|].
  unfold Planet_useFrame at 2. rewrite gtb_false by exact H. apply IH.
Qed.

(** For a body at a distance of 0 or more, the planet's group after any
    frames and [targetPos] have the [(x, z)] of the specification's
    formula. (For a negative distance the guard of [Planet_useFrame]
    would leave the group where it is.) *)
Lemma orbit_position_nonneg (data : PlanetData) (frames : list (AppState * R))
    (a : AppState) (elapsed : R) :
  0 <= distance data ->
  (vx (Planet_frames data (frames ++ [(a, elapsed)])),
   vz (Planet_frames data (frames ++ [(a, elapsed)])))
  = spec_position data elapsed (simulationSpeed a)
  /\ (vx (targetPos data a elapsed), vz (targetPos data a elapsed))
     = spec_position data elapsed (simulationSpeed a).
Proof.
  intros Hd. split; [|reflexivity].
  rewrite Planet_frames_snoc. unfold Planet_useFrame, spec_position.
  destruct (Rle_lt_dec (distance data) 0) as [Hz|Hp].
  - rewrite gtb_false by exact Hz.
    rewrite Planet_frames_centre by exact Hz. cbn [vx vz origin].
    assert (distance data = 0) as -> by lra. f_equal; ring.
  - rewrite gtb_true by lra. reflexivity.
Qed.

Lemma orbit_centre (data : PlanetData) (frames : list (AppState * R)) (a : AppState) :
  distance data = 0 ->
  forall time s,
    spec_position data time s = (0, 0)
    /\ targetPos data (mkAppState (controlMode a) (focusedBody a) s) time = origin
    /\ Planet_frames data (frames ++ [(mkAppState (controlMode a) (focusedBody a) s, time)])
       = origin.
Proof.
  intros Hz time s. unfold spec_position, targetPos, origin. cbn [simulationSpeed].
  rewrite Hz. repeat split.
  - f_equal; ring.
  - f_equal; ring.
  - apply Planet_frames_centre. lra.
Qed.

(** C7. For every body of the catalog, elapsed time and simulation
    speed, the position of the specification is
    [(cos angle * distance, sin angle * distance)] with
    [angle = elapsed * speed * simulationSpeed * 0.2]; the group of the
    planet after any frames, the last of them at [elapsed], and
    [targetPos] of the camera's focus branch at [elapsed] both have
    that [(x, z)]; and a body at distance 0 is at the origin at every
    time and speed. *)
Theorem orbit_kinematics_agree (data : PlanetData) (frames : list (AppState * R))
    (a : AppState) (elapsed : R) :
  In data PLANET_DATA ->
  spec_position data elapsed (simulationSpeed a)
  = (cos (elapsed * speed data * simulationSpeed a * 0.2) * distance data,
     sin (elapsed * speed data * simulationSpeed a * 0.2) * distance data)
  /\ (vx (Planet_frames data (frames ++ [(a, elapsed)])),
      vz (Planet_frames data (frames ++ [(a, elapsed)])))
     = spec_position data elapsed (simulationSpeed a)
  /\ (vx (targetPos data a elapsed), vz (targetPos data a elapsed))
     = spec_position data elapsed (simulationSpeed a)
  /\ (distance data = 0 ->
      forall time s,
        spec_position data time s = (0, 0)
        /\ targetPos data (mkAppState (controlMode a) (focusedBody a) s) time = origin
        /\ Planet_frames data
             (frames ++ [(mkAppState (controlMode a) (focusedBody a) s, time)])
           = origin).
Proof.
  intros Hin. apply catalog_distance_nonneg in Hin.
  split; [reflexivity|].
  destruct (orbit_position_nonneg data frames a elapsed Hin) as [P T].
  split; [exact P|]. split; [exact T|].
  intros Hz. exact (orbit_centre data frames a Hz).
Qed.

Lemma orbit_kinematics_agree_witness :
  In (mkPlanet "earth" 2.4 75 1.0 0.02 (Some 1%nat) false) PLANET_DATA
  /\ (vx (Planet_frames (mkPlanet "earth" 2.4 75 1.0 0.02 (Some 1%nat) false)
                        ([] ++ [(appState_init, 10)])),
      vz (Planet_frames (mkPlanet "earth" 2.4 75 1.0 0.02 (Some 1%nat) false)
                        ([] ++ [(appState_init, 10)])))
     = spec_position (mkPlanet "earth" 2.4 75 1.0 0.02 (Some 1%nat) false) 10 1.
Proof.
  assert (E : In (mkPlanet "earth" 2.4 75 1.0 0.02 (Some 1%nat) false) PLANET_DATA).
  { unfold PLANET_DATA. cbn [In]. do 3 right. left. reflexivity. }
  split; [exact E|].
  exact (proj1 (proj2 (orbit_kinematics_agree
                         (mkPlanet "earth" 2.4 75 1.0 0.02 (Some 1%nat) false)
                         [] appState_init 10 E))).
Defined.

(** ** The camera controller *)

Lemma findPlanet_truthy (focused : option string) (planet : PlanetData) :
  findPlanet focused = Some planet -> truthy focused = true.
Proof.
  destruct focused as [[|ch rest]|]; [|reflexivity|]; cbn; discriminate.
Qed.

Lemma circle_350 (angle : R) :
  (sin angle * 350) ^ 2 + (cos angle * 350) ^ 2 = 350 ^ 2.
Proof.
  pose proof (sin2_cos2 angle) as H. unfold Rsqr in H.
  replace ((sin angle * 350) ^ 2 + (cos angle * 350) ^ 2)
    with ((sin angle * sin angle + cos angle * cos angle) * 350 ^ 2) by ring.
  rewrite H. ring.
Qed.

(** C5, as amended. In [AUTO] mode a frame adds [delta * 0.05] to the
    orbit angle, with no factor of the simulation speed; it moves the
    camera by 0.05 of the way to [(sin angle * 350, 100, cos angle * 350)],
    a point at height 100 on the circle of radius 350 about the
    vertical axis, makes it look at the origin, and hands it to the
    pointer helper's [update]. Nothing of this depends on the focused
    body, the simulation speed, the gesture or the elapsed time. *)
Theorem autopilot_frame
    (controls_update : OrbitControls -> Camera -> Camera)
    (a : AppState) (g : option HandGesture) (elapsed delta : R) (c : Controller) :
  controlMode a = AUTO ->
  autoOrbitRef (useFrame controls_update a g elapsed delta c)
    = autoOrbitRef c + delta * 0.05
  /\ camera (useFrame controls_update a g elapsed delta c)
     = update controls_update (controlsRef c)
         (mkCamera
            (lerp (position (camera c))
                  (mkV3 (sin (autoOrbitRef c + delta * 0.05) * 350) 100
                        (cos (autoOrbitRef c + delta * 0.05) * 350))
                  0.05)
            (Some (mkV3 0 0 0)))
  /\ (sin (autoOrbitRef c + delta * 0.05) * 350) ^ 2
     + (cos (autoOrbitRef c + delta * 0.05) * 350) ^ 2 = 350 ^ 2
  /\ controlsRef (useFrame controls_update a g elapsed delta c) = controlsRef c
  /\ handState (useFrame controls_update a g elapsed delta c) = handState c
  /\ (forall focused s g' elapsed',
        useFrame controls_update (mkAppState AUTO focused s) g' elapsed' delta c
        = useFrame controls_update a g elapsed delta c).
Proof.
  intros H. unfold useFrame. rewrite H. cbn [ControlMode_eqb controlMode].
  unfold autoFrame. cbn [autoOrbitRef camera controlsRef handState].
  repeat split. apply circle_350.
Qed.

Lemma autopilot_frame_witness :
  controlMode (mkAppState AUTO (Some "earth"%string) 2) = AUTO
  /\ autoOrbitRef (useFrame no_update (mkAppState AUTO (Some "earth"%string) 2) (Some NONE)
                            0 1 controller_init)
     = autoOrbitRef controller_init + 1 * 0.05.
Proof.
  split; [reflexivity|].
  apply (autopilot_frame no_update (mkAppState AUTO (Some "earth"%string) 2) (Some NONE)
           0 1 controller_init eq_refl).
Defined.

(** C5 as stated fails where it scales the angular rate by the
    simulation speed: at speed 2 a frame of one second advances the
    angle by 0.05, not by 0.1. *)
Lemma autopilot_ignores_simulation_speed :
  simulationSpeed (mkAppState AUTO None 2) = 2
  /\ autoOrbitRef (useFrame no_update (mkAppState AUTO None 2) (Some NONE)
                            0 1 controller_init)
     <> autoOrbitRef controller_init
        + 1 * 0.05 * simulationSpeed (mkAppState AUTO None 2).
Proof.
  split; [reflexivity|].
  unfold useFrame, autoFrame, controller_init.
  cbn [ControlMode_eqb controlMode autoOrbitRef simulationSpeed]. lra.
Qed.

(** C1, as amended. In [MOUSE] or [KEYBOARD] mode, with a focused body
    of the catalog and the pointer helper mounted, a frame recomputes
    the body's position at the current elapsed time, moves the look-at
    target by 0.1 of the way to it and the camera by 0.05 of the way to
    the position offset by [(5 r, 3 r, 5 r)], [r] the body's radius,
    and hands the camera to the helper's [update]. *)
Theorem focus_tracking
    (controls_update : OrbitControls -> Camera -> Camera)
    (a : AppState) (g : option HandGesture) (elapsed delta : R) (c : Controller)
    (planet : PlanetData) (ctl : OrbitControls) :
  controlMode a = MOUSE \/ controlMode a = KEYBOARD ->
  findPlanet (focusedBody a) = Some planet ->
  controlsRef c = Some ctl ->
  useFrame controls_update a g elapsed delta c
  = mkController
      (controls_update
         (mkControls
            (lerp (target ctl)
                  (mkV3 (fst (spec_position planet elapsed (simulationSpeed a))) 0
                        (snd (spec_position planet elapsed (simulationSpeed a))))
                  0.1)
            (enabled ctl))
         (mkCamera
            (lerp (position (camera c))
                  (mkV3 (fst (spec_position planet elapsed (simulationSpeed a))
                         + radius planet * 5)
                        (radius planet * 3)
                        (snd (spec_position planet elapsed (simulationSpeed a))
                         + radius planet * 5))
                  0.05)
            (lookedAt (camera c))))
      (Some (mkControls
               (lerp (target ctl)
                     (mkV3 (fst (spec_position planet elapsed (simulationSpeed a))) 0
                           (snd (spec_position planet elapsed (simulationSpeed a))))
                     0.1)
               (enabled ctl)))
      (autoOrbitRef c) (handState c).
Proof.
  intros Hm Hp Hc. unfold useFrame.
  rewrite (findPlanet_truthy _ _ Hp).
  assert (E : ControlMode_eqb (controlMode a) AUTO = false
              /\ ControlMode_eqb (controlMode a) HAND = false).
  { destruct Hm as [-> | ->]; split; reflexivity. }
  destruct E as [-> ->].
  unfold focusFrame. rewrite Hp, Hc. reflexivity.
Qed.

Lemma focus_tracking_witness :
  (controlMode (mkAppState MOUSE (Some "sun"%string) 1) = MOUSE
   \/ controlMode (mkAppState MOUSE (Some "sun"%string) 1) = KEYBOARD)
  /\ findPlanet (focusedBody (mkAppState MOUSE (Some "sun"%string) 1))
     = Some (mkPlanet "sun" 12 0 0 0.005 (Some 0%nat) false)
  /\ controlsRef controller_init = Some (mkControls (mkV3 0 0 0) true)
  /\ controlsRef (useFrame no_update (mkAppState MOUSE (Some "sun"%string) 1) (Some NONE)
                           3 1 controller_init)
     = Some (mkControls
               (lerp (mkV3 0 0 0)
                     (mkV3 (fst (spec_position
                                   (mkPlanet "sun" 12 0 0 0.005 (Some 0%nat) false) 3 1))
                           0
                           (snd (spec_position
                                   (mkPlanet "sun" 12 0 0 0.005 (Some 0%nat) false) 3 1)))
                     0.1)
               true).
Proof.
  split; [left; reflexivity|]. split; [reflexivity|]. split; [reflexivity|].
  rewrite (focus_tracking no_update (mkAppState MOUSE (Some "sun"%string) 1) (Some NONE)
             3 1 controller_init
             (mkPlanet "sun" 12 0 0 0.005 (Some 0%nat) false)
             (mkControls (mkV3 0 0 0) true)
             (or_introl eq_refl) eq_refl eq_refl).
  reflexivity.
Defined.

(** C1 as stated fails for [HAND] mode: the frame callback takes the
    gesture branch and never reaches the branch that follows the
    focused body. With Earth focused, a [HAND] frame leaves the look-at
    target and the camera where they were, while tracking would have
    moved both. *)
Lemma hand_mode_frame_does_not_track :
  controlMode (mkAppState HAND (Some "earth"%string) 1) = HAND
  /\ findPlanet (focusedBody (mkAppState HAND (Some "earth"%string) 1))
     = Some (mkPlanet "earth" 2.4 75 1.0 0.02 (Some 1%nat) false)
  /\ useFrame no_update (mkAppState HAND (Some "earth"%string) 1) (Some NONE)
              0 (1 / 60) controller_init
     = mkController (mkCamera (mkV3 0 150 300) None)
                    (Some (mkControls (mkV3 0 0 0) false))
                    0 (handState controller_init)
  /\ vx (lerp (mkV3 0 0 0)
              (targetPos (mkPlanet "earth" 2.4 75 1.0 0.02 (Some 1%nat) false)
                         (mkAppState HAND (Some "earth"%string) 1) 0)
              0.1) = 7.5
  /\ vx (lerp (mkV3 0 150 300)
              (offset (mkPlanet "earth" 2.4 75 1.0 0.02 (Some 1%nat) false)
                      (mkAppState HAND (Some "earth"%string) 1) 0)
              0.05) = 4.35.
Proof.
  assert (C : cos (0 * 1.0 * 1 * 0.2) = 1).
  { replace (0 * 1.0 * 1 * 0.2) with 0 by lra. apply cos_0. }
  split; [reflexivity|]. split; [reflexivity|]. split; [reflexivity|].
  unfold lerp, targetPos, offset. cbn [vx vy vz speed distance radius simulationSpeed].
  rewrite C. split; lra.
Qed.

(** *** The zoom radius of [HAND] mode *)

Lemma useFrame_zoom (controls_update : OrbitControls -> Camera -> Camera)
    (a : AppState) (g : option HandGesture) (elapsed delta : R) (c : Controller) :
  50 <= zoom (handState c) <= 600 ->
  50 <= zoom (handState (useFrame controls_update a g elapsed delta c)) <= 600.
Proof.
  intros H. unfold useFrame.
  destruct (ControlMode_eqb (controlMode a) AUTO); [exact H|].
  assert (F : 50 <= zoom (handState
                            (if truthy (focusedBody a)
                             then focusFrame controls_update a elapsed c
                             else freeFrame controls_update c)) <= 600).
  { destruct (truthy (focusedBody a)).
    - unfold focusFrame. destruct (findPlanet _); [|exact H].
      destruct (controlsRef c); exact H.
    - unfold freeFrame. destruct (controlsRef c); exact H. }
  destruct (ControlMode_eqb (controlMode a) HAND); [|exact F].
  destruct g as [gesture|]; [|exact F].
  unfold handFrame. destruct gesture; cbn [handState zoom]; try exact H.
  apply clamp_bounds. lra.
Qed.

Lemma onGesture_handState (gesture : HandGesture) (w : World) :
  handState (controller (onGesture gesture w)) = handState (controller w).
Proof.
  unfold onGesture, handleGesture.
  destruct gesture; try reflexivity.
  destruct (truthy (handlerFocus w)); [|reflexivity].
  unfold setFocusedBody. rewrite render_controller. reflexivity.
Qed.

Lemma step_zoom
    (controls_update : OrbitControls -> Camera -> Camera)
    (translateX translateZ : Camera -> R -> Camera) (w : World) (e : Event) :
  50 <= zoom (handState (controller w)) <= 600 ->
  50 <= zoom (handState (controller (step controls_update translateX translateZ w e))) <= 600.
Proof.
  intros H. destruct e as [elapsed delta|now landmarks|mode|focused|s|key]; cbn [step].
  - unfold with_controller. cbn [controller]. apply useFrame_zoom. exact H.
  - destruct (sampling w); [|exact H].
    destruct (predictWebcam true now (classifier w) landmarks) as [[st [gesture|]]|];
      try exact H.
    rewrite onGesture_handState. exact H.
  - unfold setControlMode. rewrite render_controller. exact H.
  - unfold setFocusedBody. rewrite render_controller. exact H.
  - unfold setSimulationSpeed. rewrite render_controller. exact H.
  - destruct (handleKeyDown translateX translateZ (appState w) key (camera (controller w)))
      as [cam [|]]; [|exact H].
    unfold setFocusedBody. rewrite render_controller. exact H.
Qed.

(** C8. From the mounted application, after any sequence of frames,
    video samples, mode and focus changes and key presses, the zoom
    radius of [HAND] mode lies in [50, 600]; and a frame that applies a
    [ZOOM] gesture leaves it there whatever it was before and whatever
    the gesture's value. *)
Theorem zoom_radius_clamped
    (controls_update : OrbitControls -> Camera -> Camera)
    (translateX translateZ : Camera -> R -> Camera) (events : list Event) :
  50 <= zoom (handState (controller
                           (run controls_update translateX translateZ world_init events)))
     <= 600
  /\ (forall (c : Controller) (value : R),
        50 <= zoom (handState (handFrame (ZOOM value) c)) <= 600).
Proof.
  split.
  - unfold run.
    assert (G : forall w, 50 <= zoom (handState (controller w)) <= 600 ->
                50 <= zoom (handState (controller
                        (fold_left (step controls_update translateX translateZ) events w)))
                   <= 600).
    { induction events as [|e rest IH]; intros w H; cbn [fold_left]; [exact H|].
      apply IH. apply step_zoom. exact H. }
    apply G. cbn. lra.
  - intros c value. unfold handFrame. cbn [handState zoom]. apply clamp_bounds. lra.
Qed.

(** *** The pointer helper's [enabled] flag *)

Lemma render_pointer_ready (next : AppState) (w : World) :
  pointer_ready w -> pointer_ready (render next w).
Proof.
  intros (ctl & Hc & He). unfold pointer_ready.
  rewrite render_controller, render_appState. cbn [controlsRef]. rewrite Hc.
  unfold OrbitControls_props. cbn [enabledProp].
  destruct (controlMode (appState w)) eqn:P, (controlMode next) eqn:N;
    cbn [ControlMode_eqb Bool.eqb]; eexists; (split; [reflexivity|]);
    cbn [enabled]; intros; try discriminate; auto.
Qed.

Lemma useFrame_pointer_ready (controls_update : OrbitControls -> Camera -> Camera)
    (w : World) (elapsed delta : R) :
  pointer_ready w ->
  pointer_ready
    (with_controller
       (useFrame controls_update (appState w) (Some (gestureRef w)) elapsed delta
                 (controller w)) w).
Proof.
  intros (ctl & Hc & He). unfold pointer_ready, with_controller.
  cbn [controller appState]. unfold useFrame.
  destruct (controlMode (appState w)) eqn:M; cbn [ControlMode_eqb].
  - destruct (truthy (focusedBody (appState w))).
    + unfold focusFrame. destruct (findPlanet _).
      * rewrite Hc. cbn [controlsRef]. eexists. split; [reflexivity|]. cbn [enabled]. auto.
      * eauto.
    + unfold freeFrame. rewrite Hc. cbn [controlsRef]. eexists. split; reflexivity.
  - destruct (truthy (focusedBody (appState w))).
    + unfold focusFrame. destruct (findPlanet _).
      * rewrite Hc. cbn [controlsRef]. eexists. split; [reflexivity|]. discriminate.
      * exists ctl. split; [exact Hc | discriminate].
    + unfold freeFrame. rewrite Hc. cbn [controlsRef]. eexists. split; reflexivity.
  - unfold autoFrame. cbn [controlsRef]. exists ctl. split; [exact Hc | discriminate].
  - unfold handFrame. destruct (gestureRef w); cbn [controlsRef]; rewrite Hc;
      eexists; (split; [reflexivity | discriminate]).
Qed.

Lemma step_pointer_ready
    (controls_update : OrbitControls -> Camera -> Camera)
    (translateX translateZ : Camera -> R -> Camera) (w : World) (e : Event) :
  pointer_ready w -> pointer_ready (step controls_update translateX translateZ w e).
Proof.
  intros H. destruct e as [elapsed delta|now landmarks|mode|focused|s|key]; cbn [step].
  - apply useFrame_pointer_ready. exact H.
  - destruct (sampling w); [|exact H].
    destruct (predictWebcam true now (classifier w) landmarks) as [[st [gesture|]]|];
      try exact H.
    unfold onGesture, handleGesture. cbn [handlerFocus].
    destruct gesture; try exact H.
    destruct (truthy (handlerFocus w)); [|exact H].
    apply render_pointer_ready. exact H.
  - apply render_pointer_ready. exact H.
  - apply render_pointer_ready. exact H.
  - apply render_pointer_ready. exact H.
  - destruct (handleKeyDown translateX translateZ (appState w) key (camera (controller w)))
      as [cam reset] eqn:K.
    assert (P : pointer_ready
                  (with_controller
                     (mkController cam (controlsRef (controller w))
                                   (autoOrbitRef (controller w)) (handState (controller w)))
                     w)).
    { destruct H as (ctl & Hc & He). exists ctl. split; [exact Hc | exact He]. }
    destruct reset; [apply render_pointer_ready; exact P | exact P].
Qed.

Lemma run_pointer_ready
    (controls_update : OrbitControls -> Camera -> Camera)
    (translateX translateZ : Camera -> R -> Camera) (events : list Event) :
  forall w, pointer_ready w ->
            pointer_ready (run controls_update translateX translateZ w events).
Proof.
  unfold run. induction events as [|e rest IH]; intros w H; cbn [fold_left]; [exact H|].
  apply IH. apply step_pointer_ready. exact H.
Qed.

Lemma world_init_pointer_ready : pointer_ready world_init.
Proof. eexists. split; reflexivity. Qed.

(** C9, as amended. The pointer helper is rendered with damping 0.05,
    distance range [10, 650] and [enabled] equal to "the mode is
    [MOUSE]", whatever the focused body. In every state the application
    reaches the helper is mounted and, in [MOUSE] mode, enabled, with
    or without a focused body; leaving [MOUSE] mode disables it, and so
    does every frame of [HAND] mode. *)
Theorem pointer_control_enabled
    (controls_update : OrbitControls -> Camera -> Camera)
    (translateX translateZ : Camera -> R -> Camera) (events : list Event) :
  (forall a : AppState,
      OrbitControls_props a
      = mkControlsProps true 0.05 (ControlMode_eqb (controlMode a) MOUSE) 650 10)
  /\ exists ctl,
       controlsRef (controller (run controls_update translateX translateZ world_init events))
       = Some ctl
       /\ (controlMode
             (appState (run controls_update translateX translateZ world_init events))
           = MOUSE ->
           enabled ctl = true
           /\ forall mode,
                mode <> MOUSE ->
                option_map enabled
                  (controlsRef
                     (controller
                        (step controls_update translateX translateZ
                              (run controls_update translateX translateZ world_init events)
                              (SetControlMode mode))))
                = Some false)
       /\ (controlMode
             (appState (run controls_update translateX translateZ world_init events))
           = HAND ->
           forall elapsed delta,
             option_map enabled
               (controlsRef
                  (controller
                     (step controls_update translateX translateZ
                           (run controls_update translateX translateZ world_init events)
                           (Frame elapsed delta))))
             = Some false).
Proof.
  split; [reflexivity|].
  destruct (run_pointer_ready controls_update translateX translateZ events
              world_init world_init_pointer_ready) as (ctl & Hc & He).
  revert Hc He.
  generalize (run controls_update translateX translateZ world_init events) as w.
  intros w Hc He.
  exists ctl. split; [exact Hc|]. split.
  - intros M. split; [exact (He M)|].
    intros mode Hm. cbn [step]. unfold setControlMode, render, OrbitControls_props.
    cbn [controller controlsRef enabledProp controlMode]. rewrite Hc, M.
    destruct mode; [contradiction| | |]; reflexivity.
  - intros M elapsed delta. cbn [step]. unfold with_controller, useFrame.
    cbn [controller]. rewrite M. cbn [ControlMode_eqb].
    unfold handFrame. destruct (gestureRef w); cbn [controlsRef]; rewrite Hc; reflexivity.
Qed.

Lemma pointer_control_enabled_witness :
  controlMode (appState (run no_update no_translate no_translate world_init
                             [SetControlMode HAND])) = HAND
  /\ forall elapsed delta,
       option_map enabled
         (controlsRef
            (controller
               (step no_update no_translate no_translate
                     (run no_update no_translate no_translate world_init
                          [SetControlMode HAND])
                     (Frame elapsed delta))))
       = Some false.
Proof.
  split; [reflexivity|].
  destruct (pointer_control_enabled no_update no_translate no_translate
              [SetControlMode HAND]) as (_ & ctl & _ & _ & Hh).
  apply Hh. reflexivity.
Defined.

(** C9 as stated fails where it has a focused body disable the pointer
    helper: after Earth is focused in [MOUSE] mode and a frame has run,
    the helper is still enabled. *)
Lemma pointer_control_enabled_under_focus :
  focusedBody (appState (run no_update no_translate no_translate world_init
                             [SetFocusedBody (Some "earth"%string); Frame 0 (1 / 60)]))
  = Some "earth"%string
  /\ option_map enabled
       (controlsRef
          (controller (run no_update no_translate no_translate world_init
                           [SetFocusedBody (Some "earth"%string); Frame 0 (1 / 60)])))
     = Some true.
Proof. split; reflexivity. Qed.

(** The last branch of the frame callback enables the helper in
    [KEYBOARD] mode too, against the [enabled] prop of that mode. *)
Lemma keyboard_frame_enables_pointer_control :
  controlMode (appState (run no_update no_translate no_translate world_init
                             [SetControlMode KEYBOARD; Frame 0 (1 / 60)]))
  = KEYBOARD
  /\ enabledProp (OrbitControls_props
                    (appState (run no_update no_translate no_translate world_init
                                   [SetControlMode KEYBOARD; Frame 0 (1 / 60)])))
     = false
  /\ option_map enabled
       (controlsRef
          (controller (run no_update no_translate no_translate world_init
                           [SetControlMode KEYBOARD])))
     = Some false
  /\ option_map enabled
       (controlsRef
          (controller (run no_update no_translate no_translate world_init
                           [SetControlMode KEYBOARD; Frame 0 (1 / 60)])))
     = Some true.
Proof. repeat split. Qed.

(** *** Gestures outside [HAND] mode *)

Lemma render_sampling (next : AppState) (w : World) :
  sampling_in_hand_mode w -> sampling_in_hand_mode (render next w).
Proof.
  unfold sampling_in_hand_mode. intros H. rewrite render_appState. unfold render.
  destruct (ControlMode_eqb (controlMode (appState w)) (controlMode next)) eqn:E;
    cbn [negb sampling].
  - apply mode_eqb_eq in E. rewrite <- E. exact H.
  - unfold webcamEffect. cbn [appState].
    destruct (ControlMode_eqb (controlMode next) HAND) eqn:F;
      unfold startWebcam, stopWebcam; cbn [sampling].
    + intros _. apply mode_eqb_eq. exact F.
    + intros S. discriminate S.
Qed.

Lemma step_sampling
    (controls_update : OrbitControls -> Camera -> Camera)
    (translateX translateZ : Camera -> R -> Camera) (w : World) (e : Event) :
  sampling_in_hand_mode w ->
  sampling_in_hand_mode (step controls_update translateX translateZ w e).
Proof.
  intros H. destruct e as [elapsed delta|now landmarks|mode|focused|s|key]; cbn [step].
  - exact H.
  - destruct (sampling w) eqn:S; [|exact H].
    destruct (predictWebcam true now (classifier w) landmarks) as [[st [gesture|]]|].
    + unfold onGesture, handleGesture. cbn [handlerFocus].
      assert (P : forall g, sampling_in_hand_mode
                              (mkWorld (appState w) g st true (handlerFocus w)
                                       (controller w) (tweens w)))
        by (intros g _; apply H; exact S).
      destruct gesture; try apply P.
      destruct (truthy (handlerFocus w)); [|apply P].
      apply render_sampling. apply P.
    + intros _. apply H. exact S.
    + intros F. discriminate F.
  - apply render_sampling. exact H.
  - apply render_sampling. exact H.
  - apply render_sampling. exact H.
  - destruct (handleKeyDown translateX translateZ (appState w) key (camera (controller w)))
      as [cam [|]]; [apply render_sampling|]; exact H.
Qed.

Lemma run_sampling
    (controls_update : OrbitControls -> Camera -> Camera)
    (translateX translateZ : Camera -> R -> Camera) (events : list Event) :
  forall w, sampling_in_hand_mode w ->
            sampling_in_hand_mode (run controls_update translateX translateZ w events).
Proof.
  unfold run. induction events as [|e rest IH]; intros w H; cbn [fold_left]; [exact H|].
  apply IH. apply step_sampling. exact H.
Qed.

(** In the states the application reaches, a video sample outside
    [HAND] mode finds the sample loop cancelled by [stopWebcam] and
    changes nothing. *)
Lemma samples_stop_outside_hand_mode
    (controls_update : OrbitControls -> Camera -> Camera)
    (translateX translateZ : Camera -> R -> Camera) (events : list Event)
    (now : Z) (landmarks : list Hand) :
  controlMode (appState (run controls_update translateX translateZ world_init events))
    <> HAND ->
  step controls_update translateX translateZ
       (run controls_update translateX translateZ world_init events)
       (VideoSample now landmarks)
  = run controls_update translateX translateZ world_init events.
Proof.
  pose proof (run_sampling controls_update translateX translateZ events world_init) as S.
  revert S.
  generalize (run controls_update translateX translateZ world_init events) as w.
  intros w S M. cbn [step].
  destruct (sampling w) eqn:E; [|reflexivity].
  exfalso. apply M. apply S; [intros F; discriminate F | exact E].
Qed.

Lemma setControlMode_frame (mode : ControlMode) (w : World) :
  controlMode (appState (setControlMode mode w)) = mode
  /\ gestureRef (setControlMode mode w) = gestureRef w
  /\ handState (controller (setControlMode mode w)) = handState (controller w).
Proof.
  unfold setControlMode.
  rewrite render_appState, render_gestureRef, render_controller. repeat split.
Qed.

(** C4, as amended. While the mode is not [HAND], the frame callback
    does not read the stored gesture: its result is the same whatever
    the gesture is, and the hand state (rotation, zoom radius, cursor)
    is left as it was. In every state, whatever the mode, nothing but a
    video sample writes the stored gesture: a change of mode, away from
    [HAND] as well as into it, a change of focus or of speed, a key
    press and a frame leave it as it is. In [HAND] mode the frame
    callback reads it: so after a change to any mode followed by a
    change to [HAND], the gesture stored before the two changes is
    still stored and the next frame applies it. *)
Theorem no_gesture_outside_hand_mode
    (controls_update : OrbitControls -> Camera -> Camera)
    (translateX translateZ : Camera -> R -> Camera) (w : World) :
  (controlMode (appState w) <> HAND ->
   (forall g elapsed delta,
       useFrame controls_update (appState w) (Some g) elapsed delta (controller w)
       = useFrame controls_update (appState w) (Some NONE) elapsed delta (controller w))
   /\ (forall elapsed delta,
         handState (controller (step controls_update translateX translateZ w
                                     (Frame elapsed delta)))
         = handState (controller w)))
  /\ (forall e,
        (forall now landmarks, e <> VideoSample now landmarks) ->
        gestureRef (step controls_update translateX translateZ w e) = gestureRef w)
  /\ (controlMode (appState w) = HAND ->
      forall elapsed delta,
        controller (step controls_update translateX translateZ w (Frame elapsed delta))
        = handFrame (gestureRef w) (controller w))
  /\ (forall mode elapsed delta,
        gestureRef (run controls_update translateX translateZ w
                        [SetControlMode mode; SetControlMode HAND])
        = gestureRef w
        /\ controller (run controls_update translateX translateZ w
                           [SetControlMode mode; SetControlMode HAND;
                            Frame elapsed delta])
           = handFrame (gestureRef w)
                       (controller (run controls_update translateX translateZ w
                                        [SetControlMode mode; SetControlMode HAND]))).
Proof.
  assert (Rd : forall w0 : World,
             controlMode (appState w0) = HAND ->
             forall elapsed delta,
               controller (step controls_update translateX translateZ w0
                                (Frame elapsed delta))
               = handFrame (gestureRef w0) (controller w0)).
  { intros w0 M elapsed delta. cbn [step]. unfold with_controller, useFrame.
    cbn [controller]. rewrite M. reflexivity. }
  split; [|split; [|split]].
  - intros M.
    assert (Hh : ControlMode_eqb (controlMode (appState w)) HAND = false).
    { destruct (controlMode (appState w)); [reflexivity..|contradiction]. }
    split.
    + intros g elapsed delta. unfold useFrame. rewrite Hh. reflexivity.
    + intros elapsed delta. cbn [step]. unfold with_controller, useFrame.
      cbn [controller]. rewrite Hh.
      destruct (ControlMode_eqb (controlMode (appState w)) AUTO); [reflexivity|].
      destruct (truthy (focusedBody (appState w))).
      * unfold focusFrame. destruct (findPlanet _); [|reflexivity].
        destruct (controlsRef (controller w)); reflexivity.
      * unfold freeFrame. destruct (controlsRef (controller w)); reflexivity.
  - intros e V. destruct e as [elapsed delta|now landmarks|mode|focused|s|key]; cbn [step].
    + reflexivity.
    + exfalso. exact (V now landmarks eq_refl).
    + unfold setControlMode. apply render_gestureRef.
    + unfold setFocusedBody. apply render_gestureRef.
    + unfold setSimulationSpeed. apply render_gestureRef.
    + destruct (handleKeyDown translateX translateZ (appState w) key (camera (controller w)))
        as [cam [|]]; [|reflexivity].
      unfold setFocusedBody. rewrite render_gestureRef. reflexivity.
  - exact (Rd w).
  - intros mode elapsed delta. unfold run. cbn [fold_left].
    change (step controls_update translateX translateZ w (SetControlMode mode))
      with (setControlMode mode w).
    change (step controls_update translateX translateZ (setControlMode mode w)
                 (SetControlMode HAND))
      with (setControlMode HAND (setControlMode mode w)).
    destruct (setControlMode_frame mode w) as (_ & G1 & _).
    destruct (setControlMode_frame HAND (setControlMode mode w)) as (M2 & G2 & _).
    split; [rewrite G2; exact G1|].
    rewrite (Rd _ M2), G2, G1. reflexivity.
Qed.

Lemma no_gesture_outside_hand_mode_witness :
  controlMode
    (appState (run no_update no_translate no_translate world_init
                   [SetControlMode HAND; SetControlMode KEYBOARD]))
    <> HAND
  /\ forall g elapsed delta,
       useFrame no_update
         (appState (run no_update no_translate no_translate world_init
                        [SetControlMode HAND; SetControlMode KEYBOARD]))
         (Some g) elapsed delta
         (controller (run no_update no_translate no_translate world_init
                          [SetControlMode HAND; SetControlMode KEYBOARD]))
       = useFrame no_update
           (appState (run no_update no_translate no_translate world_init
                          [SetControlMode HAND; SetControlMode KEYBOARD]))
           (Some NONE) elapsed delta
           (controller (run no_update no_translate no_translate world_init
                            [SetControlMode HAND; SetControlMode KEYBOARD])).
Proof.
  split; [intros F; discriminate F|].
  apply (proj1 (no_gesture_outside_hand_mode no_update no_translate no_translate
                  (run no_update no_translate no_translate world_init
                       [SetControlMode HAND; SetControlMode KEYBOARD]))).
  intros F; discriminate F.
Defined.

Lemma two_hand_first_sample (now : Z) (a b : R) :
  a <= b ->
  predictWebcam true now classifier_init [handAt a; handAt b]
  = Some (mkClassifier None (Some (b - a)) 0, None).
Proof.
  intros H. unfold predictWebcam, handAt, poseHand.
  cbn [negb List.length Nat.ltb Nat.leb].
  rewrite processGestures_two_hands. unfold twoHandZoom, classifier_init.
  cbn [lastPinchDist gestureHoldStart]. rewrite dist2_on_axis by exact H. reflexivity.
Qed.

Lemma two_hand_apart_sample (now : Z) (old a b : R) :
  a <= b -> b - a - old > 0.005 ->
  predictWebcam true now (mkClassifier None (Some old) 0) [handAt a; handAt b]
  = Some (mkClassifier None (Some (b - a)) 0, Some (ZOOM ((b - a - old) * 20))).
Proof.
  intros H D. unfold predictWebcam, handAt, poseHand.
  cbn [negb List.length Nat.ltb Nat.leb].
  rewrite processGestures_two_hands. unfold twoHandZoom.
  cbn [lastPinchDist gestureHoldStart]. rewrite dist2_on_axis by exact H.
  rewrite gtb_true by solve_abs. reflexivity.
Qed.

Lemma hand_frame_zoom
    (controls_update : OrbitControls -> Camera -> Camera)
    (translateX translateZ : Camera -> R -> Camera)
    (w : World) (value elapsed delta : R) :
  controlMode (appState w) = HAND ->
  gestureRef w = ZOOM value ->
  zoom (handState (controller (step controls_update translateX translateZ w
                                    (Frame elapsed delta))))
  = Num.max 50 (Num.min 600 (zoom (handState (controller w)) - value)).
Proof.
  intros M G. cbn [step]. unfold with_controller, useFrame. cbn [controller].
  rewrite M, G. reflexivity.
Qed.

(** C4 as stated fails where it has the controller see [NONE] until a
    fresh gesture arrives: a zoom gesture made in [HAND] mode is still
    stored after the mode is changed to [MOUSE], and on re-entering
    [HAND] mode the first frame applies it, taking the zoom radius from
    300 to 299.4 with no video sample in between. *)
Lemma stale_gesture_applied_on_reentry :
  gestureRef (run no_update no_translate no_translate world_init
                  [SetControlMode HAND;
                   VideoSample 0 [handAt 0; handAt 0.10];
                   VideoSample 40 [handAt 0; handAt 0.13];
                   SetControlMode MOUSE])
  = ZOOM ((0.13 - 0 - (0.10 - 0)) * 20)
  /\ zoom (handState (controller
        (run no_update no_translate no_translate world_init
                  [SetControlMode HAND;
                   VideoSample 0 [handAt 0; handAt 0.10];
                   VideoSample 40 [handAt 0; handAt 0.13];
                   SetControlMode MOUSE;
                   SetControlMode HAND]))) = 300
  /\ zoom (handState (controller
        (run no_update no_translate no_translate world_init
                  [SetControlMode HAND;
                   VideoSample 0 [handAt 0; handAt 0.10];
                   VideoSample 40 [handAt 0; handAt 0.13];
                   SetControlMode MOUSE;
                   SetControlMode HAND;
                   Frame 2 (1 / 60)]))) = 299.4.
Proof.
  unfold run. cbn [fold_left].
  set (w1 := step no_update no_translate no_translate world_init (SetControlMode HAND)).
  assert (S1 : sampling w1 = true) by reflexivity.
  assert (C1 : classifier w1 = classifier_init) by reflexivity.
  assert (Z1 : zoom (handState (controller w1)) = 300).
  { unfold w1. cbn [step].
    destruct (setControlMode_frame HAND world_init) as (_ & _ & ->). reflexivity. }
  assert (E2 : step no_update no_translate no_translate w1
                    (VideoSample 0 [handAt 0; handAt 0.10])
               = mkWorld (appState w1) (gestureRef w1)
                         (mkClassifier None (Some (0.10 - 0)) 0) true
                         (handlerFocus w1) (controller w1) (tweens w1)).
  { cbn [step]. rewrite S1, C1, two_hand_first_sample by lra. reflexivity. }
  rewrite E2.
  assert (E3 : step no_update no_translate no_translate
                    (mkWorld (appState w1) (gestureRef w1)
                             (mkClassifier None (Some (0.10 - 0)) 0) true
                             (handlerFocus w1) (controller w1) (tweens w1))
                    (VideoSample 40 [handAt 0; handAt 0.13])
               = mkWorld (appState w1) (ZOOM ((0.13 - 0 - (0.10 - 0)) * 20))
                         (mkClassifier None (Some (0.13 - 0)) 0) true
                         (handlerFocus w1) (controller w1) (tweens w1)).
  { cbn [step sampling classifier]. rewrite two_hand_apart_sample by lra. reflexivity. }
  rewrite E3. clearbody w1.
  set (w3 := mkWorld (appState w1) (ZOOM ((0.13 - 0 - (0.10 - 0)) * 20))
                     (mkClassifier None (Some (0.13 - 0)) 0) true
                     (handlerFocus w1) (controller w1) (tweens w1)).
  change (step no_update no_translate no_translate w3 (SetControlMode MOUSE))
    with (setControlMode MOUSE w3).
  change (step no_update no_translate no_translate (setControlMode MOUSE w3)
               (SetControlMode HAND))
    with (setControlMode HAND (setControlMode MOUSE w3)).
  destruct (setControlMode_frame MOUSE w3) as (_ & G4 & H4).
  destruct (setControlMode_frame HAND (setControlMode MOUSE w3)) as (M5 & G5 & H5).
  split; [exact G4|]. split.
  - rewrite H5, H4. exact Z1.
  - rewrite (hand_frame_zoom no_update no_translate no_translate _
               ((0.13 - 0 - (0.10 - 0)) * 20) 2 (1 / 60) M5)
      by (rewrite G5, G4; reflexivity).
    rewrite H5, H4. change (controller w3) with (controller w1). rewrite Z1.
    unfold Num.min, Rmin. destruct (Rle_dec 600 _); [lra|].
    unfold Num.max, Rmax. destruct (Rle_dec 50 _); lra.
Qed.

(** *** The transition on clearing the focus *)

Lemma frames_keep_tweens
    (controls_update : OrbitControls -> Camera -> Camera)
    (translateX translateZ : Camera -> R -> Camera) (frames : list (R * R)) :
  forall w,
    tweens (run controls_update translateX translateZ w
                (map (fun f => Frame (fst f) (snd f)) frames))
    = tweens w
    /\ appState (run controls_update translateX translateZ w
                     (map (fun f => Frame (fst f) (snd f)) frames))
       = appState w.
Proof.
  unfold run. induction frames as [|[elapsed delta] rest IH]; intros w;
    cbn [map fold_left fst snd]; [split; reflexivity|].
  destruct (IH (step controls_update translateX translateZ w (Frame elapsed delta)))
    as [-> ->].
  split; reflexivity.
Qed.

(** C6. When the focused body is cleared in a mode other than [AUTO],
    the focus effect starts one transition: a [gsap.to] of the camera
    position to (0, 150, 300) and one of the look-at target to
    (0, 0, 0), each of 2 seconds with the ease [power3.inOut]. The
    frames that follow, however many, start no other: the list of
    transitions started stays as the clearing left it, and the focus
    stays cleared. *)
Theorem focus_cleared_transition
    (controls_update : OrbitControls -> Camera -> Camera)
    (translateX translateZ : Camera -> R -> Camera)
    (w : World) (ctl : OrbitControls) (frames : list (R * R)) :
  truthy (focusedBody (appState w)) = true ->
  controlMode (appState w) <> AUTO ->
  controlsRef (controller w) = Some ctl ->
  tweens (run controls_update translateX translateZ w
              (SetFocusedBody None :: map (fun f => Frame (fst f) (snd f)) frames))
  = [mkTween ControlsTarget (mkV3 0 0 0) 2 "power3.inOut";
     mkTween CameraPosition (mkV3 0 150 300) 2 "power3.inOut"] ++ tweens w
  /\ focusedBody
       (appState (run controls_update translateX translateZ w
                      (SetFocusedBody None :: map (fun f => Frame (fst f) (snd f)) frames)))
     = None.
Proof.
  intros Hf Hm Hc.
  change (run controls_update translateX translateZ w
              (SetFocusedBody None :: map (fun f => Frame (fst f) (snd f)) frames))
    with (run controls_update translateX translateZ
              (step controls_update translateX translateZ w (SetFocusedBody None))
              (map (fun f => Frame (fst f) (snd f)) frames)).
  destruct (frames_keep_tweens controls_update translateX translateZ frames
              (step controls_update translateX translateZ w (SetFocusedBody None)))
    as [-> ->].
  cbn [step]. unfold setFocusedBody. rewrite render_tweens, render_appState.
  split; [|reflexivity].
  cbn [controlMode focusedBody]. rewrite mode_eqb_refl. cbn [negb orb].
  destruct (focusedBody (appState w)) as [name|] eqn:F; [|discriminate Hf].
  cbn [focus_eqb negb]. unfold focusEffect. cbn [focusedBody controlMode truthy negb].
  destruct (controlMode (appState w)); try contradiction; cbn [ControlMode_eqb];
    rewrite Hc; reflexivity.
Qed.

Lemma focus_cleared_transition_witness :
  truthy (focusedBody
            (appState (run no_update no_translate no_translate world_init
                           [SetFocusedBody (Some "earth"%string)]))) = true
  /\ controlMode
       (appState (run no_update no_translate no_translate world_init
                      [SetFocusedBody (Some "earth"%string)])) <> AUTO
  /\ controlsRef
       (controller (run no_update no_translate no_translate world_init
                        [SetFocusedBody (Some "earth"%string)]))
     = Some (mkControls (mkV3 0 0 0) true)
  /\ tweens (run no_update no_translate no_translate
                 (run no_update no_translate no_translate world_init
                      [SetFocusedBody (Some "earth"%string)])
                 (SetFocusedBody None
                  :: map (fun f => Frame (fst f) (snd f)) [(1, 1 / 60); (2, 1 / 60)]))
     = [mkTween ControlsTarget (mkV3 0 0 0) 2 "power3.inOut";
        mkTween CameraPosition (mkV3 0 150 300) 2 "power3.inOut"]
       ++ tweens (run no_update no_translate no_translate world_init
                      [SetFocusedBody (Some "earth"%string)]).
Proof.
  split; [reflexivity|]. split; [intros F; discriminate F|]. split; [reflexivity|].
  apply (focus_cleared_transition no_update no_translate no_translate
           (run no_update no_translate no_translate world_init
                [SetFocusedBody (Some "earth"%string)])
           (mkControls (mkV3 0 0 0) true) [(1, 1 / 60); (2, 1 / 60)]).
  - reflexivity.
  - intros F; discriminate F.
  - reflexivity.
Defined.

(** * Further properties of the code *)

(** ** The two-hand classifier, beyond the claims *)

Lemma nth_error_lt {A : Type} (l : list A) (n : nat) :
  (n < List.length l)%nat -> exists x, nth_error l n = Some x.
Proof.
  intros H. destruct (nth_error l n) as [x|] eqn:E; [eauto|].
  apply nth_error_None in E. lia.
Qed.

(** The single-hand tick, with the wrist and the index tip it reads. *)
Lemma processGestures_single_exact (now : Z) (st : ClassifierState)
    (landmarksList : list Hand) (hand : Hand) (i m r p : bool) (wrist tip : Point2) :
  singleHandOf landmarksList = Some hand ->
  fingerStates hand = Some (i, m, r, p) ->
  nth_error hand 0 = Some wrist ->
  nth_error hand 8 = Some tip ->
  predictWebcam true now st landmarksList = Some (singleHand now st i m r p wrist tip).
Proof.
  intros S F W T. rewrite (predictWebcam_hands _ _ _ _ S).
  revert S F. unfold singleHandOf, processGestures, fingerStates.
  destruct (Nat.eqb _ 2); [discriminate|].
  intros ->. cbn [bind]. rewrite T, W. cbn [bind].
  destruct (nth_error hand 6) as [l6|]; cbn [bind]; [|discriminate].
  destruct (nth_error hand 12) as [l12|]; cbn [bind]; [|discriminate].
  destruct (nth_error hand 10) as [l10|]; cbn [bind]; [|discriminate].
  destruct (nth_error hand 16) as [l16|]; cbn [bind]; [|discriminate].
  destruct (nth_error hand 14) as [l14|]; cbn [bind]; [|discriminate].
  destruct (nth_error hand 20) as [l20|]; cbn [bind]; [|discriminate].
  destruct (nth_error hand 18) as [l18|]; cbn [bind]; [|discriminate].
  intros H. injection H as <- <- <- <-. reflexivity.
Qed.

(** X1. On a tick that shows one hand in the peace sign, with a stored
    hand position, the classifier stores the wrist and emits
    [ROTATE (dx, dy)], the movement of the wrist, when [|dx|] or [|dy|]
    is above 0.002; at 0.002 or below on both axes it emits nothing. *)
Theorem rotate_dead_zone (now : Z) (st : ClassifierState)
    (landmarksList : list Hand) (hand : Hand) (wrist tip last : Point2) :
  singleHandOf landmarksList = Some hand ->
  fingerStates hand = Some (true, true, false, false) ->
  nth_error hand 0 = Some wrist ->
  nth_error hand 8 = Some tip ->
  lastHandPos st = Some last ->
  exists ev,
    predictWebcam true now st landmarksList
    = Some (mkClassifier (Some (mkPoint2 (px wrist) (py wrist))) None (gestureHoldStart st),
            ev)
    /\ (Rabs (px wrist - px last) > 0.002 \/ Rabs (py wrist - py last) > 0.002 ->
        ev = Some (ROTATE (mkPoint2 (px wrist - px last) (py wrist - py last))))
    /\ (Rabs (px wrist - px last) <= 0.002 -> Rabs (py wrist - py last) <= 0.002 ->
        ev = None).
Proof.
  intros S F W T L.
  rewrite (processGestures_single_exact now st _ _ _ _ _ _ _ _ S F W T).
  unfold singleHand. cbn [andb negb]. rewrite L.
  eexists. split; [reflexivity|]. split.
  - intros [H|H].
    + rewrite (gtb_true _ _ H). reflexivity.
    + rewrite (gtb_true _ _ H), orb_true_r. reflexivity.
  - intros Hx Hy. rewrite (gtb_false _ _ Hx), (gtb_false _ _ Hy). reflexivity.
Qed.

Lemma rotate_dead_zone_witness :
  exists ev,
    predictWebcam true 40 (mkClassifier (Some (mkPoint2 0.48 0.9)) None 0) [victory]
    = Some (mkClassifier (Some (mkPoint2 0.5 0.9)) None 0, ev)
    /\ ev = Some (ROTATE (mkPoint2 (0.5 - 0.48) (0.9 - 0.9))).
Proof.
  destruct (rotate_dead_zone 40 (mkClassifier (Some (mkPoint2 0.48 0.9)) None 0)
              [victory] victory (mkPoint2 0.5 0.9) (mkPoint2 0.5 0.2) (mkPoint2 0.48 0.9)
              eq_refl (fingerStates_pose _ true true false false) eq_refl eq_refl eq_refl)
    as (ev & E & R & _).
  exists ev. split; [exact E|]. apply R. left. cbn [px]. solve_abs.
Defined.

(** X2. A tick that shows one hand pointing (index extended, the other
    three curled) emits [FOCUS] with the index tip mirrored in [x]; a
    [HAND] frame that reads it puts the cursor at
    [(1 - 2 x, 1 - 2 y)], inside the square [-1, 1] on both axes when
    the tip is inside the image, and leaves camera, rotation and zoom
    as they were. *)
Theorem pointing_sets_cursor (now : Z) (st : ClassifierState)
    (landmarksList : list Hand) (hand : Hand) (wrist tip : Point2) (c : Controller) :
  singleHandOf landmarksList = Some hand ->
  fingerStates hand = Some (true, false, false, false) ->
  nth_error hand 0 = Some wrist ->
  nth_error hand 8 = Some tip ->
  predictWebcam true now st landmarksList
  = Some (mkClassifier (Some (mkPoint2 (px wrist) (py wrist))) None now,
          Some (FOCUS (mkPoint2 (1 - px tip) (py tip))))
  /\ cursor (handState (handFrame (FOCUS (mkPoint2 (1 - px tip) (py tip))) c))
     = mkPoint2 (1 - 2 * px tip) (1 - 2 * py tip)
  /\ camera (handFrame (FOCUS (mkPoint2 (1 - px tip) (py tip))) c) = camera c
  /\ rotation (handState (handFrame (FOCUS (mkPoint2 (1 - px tip) (py tip))) c))
     = rotation (handState c)
  /\ zoom (handState (handFrame (FOCUS (mkPoint2 (1 - px tip) (py tip))) c))
     = zoom (handState c)
  /\ (0 <= px tip <= 1 -> 0 <= py tip <= 1 ->
      -1 <= 1 - 2 * px tip <= 1 /\ -1 <= 1 - 2 * py tip <= 1).
Proof.
  intros S F W T.
  rewrite (processGestures_single_exact now st _ _ _ _ _ _ _ _ S F W T).
  split; [reflexivity|]. split.
  - unfold handFrame. cbn [handState cursor px py]. f_equal; ring.
  - repeat split; lra.
Qed.

Lemma pointing_sets_cursor_witness :
  predictWebcam true 40 classifier_init
    [poseHand (mkPoint2 0.5 0.9) true false false false]
  = Some (mkClassifier (Some (mkPoint2 0.5 0.9)) None 40,
          Some (FOCUS (mkPoint2 (1 - 0.5) 0.2))).
Proof.
  exact (proj1 (pointing_sets_cursor 40 classifier_init
                  [poseHand (mkPoint2 0.5 0.9) true false false false]
                  (poseHand (mkPoint2 0.5 0.9) true false false false)
                  (mkPoint2 0.5 0.9) (mkPoint2 0.5 0.2) controller_init
                  eq_refl (fingerStates_pose _ true false false false) eq_refl eq_refl)).
Defined.

Lemma singleHand_not_NONE (now : Z) (st : ClassifierState)
    (i m r p : bool) (wrist tip : Point2) :
  snd (singleHand now st i m r p wrist tip) <> Some NONE.
Proof.
  unfold singleHand.
  destruct i, m, r, p; cbn [andb negb orb];
    repeat match goal with
           | |- context [if ?b then _ else _] => destruct b
           | |- context [match lastHandPos st with _ => _ end] => destruct (lastHandPos st)
           end;
    cbn [snd]; discriminate.
Qed.

(** X3. [NONE] is emitted on the ticks with no hand and on no other:
    with a hand in view, a tick that recognises nothing does not call
    [onGesture], so the gesture stored before it stays. *)
Theorem none_only_without_hands (ready : bool) (now : Z) (st st' : ClassifierState)
    (landmarksList : list Hand) :
  predictWebcam ready now st landmarksList = Some (st', Some NONE)
  <-> ready = true /\ landmarksList = []
      /\ st' = mkClassifier None None (gestureHoldStart st).
Proof.
  split.
  - unfold predictWebcam. destruct ready; cbn [negb]; [|discriminate].
    destruct landmarksList as [|h rest].
    + cbn. intros H. injection H as <-. auto.
    + cbn [List.length Nat.ltb Nat.leb]. intros H. exfalso.
      apply processGestures_cases in H.
      destruct H as [(w1 & w2 & H) | (i & m & r & p & wrist & tip & H)].
      * destruct (twoHandZoom_event st w1 w2) as [N | (old & _ & _ & N)];
          rewrite <- H in N; cbn [snd] in N; discriminate N.
      * apply (singleHand_not_NONE now st i m r p wrist tip).
        rewrite <- H. reflexivity.
  - intros (-> & -> & ->). reflexivity.
Qed.

Lemma processGestures_length2 (now : Z) (st : ClassifierState)
    (landmarksList : list Hand) (out : Tick) :
  List.length landmarksList = 2%nat ->
  processGestures now st landmarksList = Some out ->
  exists w1 w2, out = twoHandZoom st w1 w2.
Proof.
  intros L. unfold processGestures. rewrite L. cbn [Nat.eqb].
  destruct (landmark landmarksList 0 0) as [w1|]; cbn [bind]; [|discriminate].
  destruct (landmark landmarksList 1 0) as [w2|]; cbn [bind]; [|discriminate].
  intros H. injection H as <-. eauto.
Qed.

Lemma processGestures_not2 (now : Z) (st : ClassifierState)
    (landmarksList : list Hand) (out : Tick) :
  List.length landmarksList <> 2%nat ->
  processGestures now st landmarksList = Some out ->
  exists i m r p wrist tip, out = singleHand now st i m r p wrist tip.
Proof.
  intros L. unfold processGestures.
  destruct (Nat.eqb (List.length landmarksList) 2) eqn:E;
    [apply Nat.eqb_eq in E; contradiction|].
  destruct (nth_error landmarksList 0) as [h|]; cbn [bind]; [|discriminate].
  repeat match goal with
         | |- context [bind (nth_error h ?k)] =>
             destruct (nth_error h k); cbn [bind]; [|discriminate]
         end.
  intros H. injection H as <-. do 6 eexists. reflexivity.
Qed.

Lemma singleHand_never_zooms (now : Z) (st : ClassifierState)
    (i m r p : bool) (wrist tip : Point2) (z : R) :
  snd (singleHand now st i m r p wrist tip) <> Some (ZOOM z)
  /\ lastPinchDist (fst (singleHand now st i m r p wrist tip)) = None.
Proof.
  unfold singleHand.
  destruct i, m, r, p; cbn [andb negb orb];
    repeat match goal with
           | |- context [if ?b then _ else _] => destruct b
           | |- context [match lastHandPos st with _ => _ end] => destruct (lastHandPos st)
           end;
    cbn [fst snd lastPinchDist]; split; try discriminate; reflexivity.
Qed.

(** X4. One-hand and two-hand gestures never take a delta across each
    other: the tick after a two-hand tick emits no [ROTATE], and the
    tick after a tick with any other number of hands emits no [ZOOM],
    whatever the two ticks show. *)
Theorem hands_never_blend (now now' : Z) (st st1 st2 : ClassifierState)
    (landmarksList landmarksList' : list Hand) (ev1 ev2 : option HandGesture) :
  predictWebcam true now st landmarksList = Some (st1, ev1) ->
  predictWebcam true now' st1 landmarksList' = Some (st2, ev2) ->
  (List.length landmarksList = 2%nat -> forall v, ev2 <> Some (ROTATE v))
  /\ (List.length landmarksList <> 2%nat -> forall z, ev2 <> Some (ZOOM z)).
Proof.
  intros H1 H2. split.
  - intros L v.
    assert (P : lastHandPos st1 = None).
    { unfold predictWebcam in H1. cbn [negb] in H1. rewrite L in H1.
      cbn [Nat.ltb Nat.leb] in H1.
      destruct (processGestures_length2 _ _ _ _ L H1) as (w1 & w2 & E).
      injection E as -> _. reflexivity. }
    unfold predictWebcam in H2. cbn [negb] in H2.
    destruct (0 <? List.length landmarksList')%nat.
    + apply processGestures_cases in H2.
      destruct H2 as [(w1 & w2 & E) | (i & m & r & p & wrist & tip & E)].
      * destruct (twoHandZoom_event st1 w1 w2) as [N | (old & _ & _ & N)];
          rewrite <- E in N; cbn [snd] in N; rewrite N; discriminate.
      * pose proof (singleHand_fresh now' st1 i m r p wrist tip P v 0) as [F _].
        rewrite <- E in F. exact F.
    + injection H2 as _ <-. discriminate.
  - intros L z.
    assert (P : lastPinchDist st1 = None).
    { unfold predictWebcam in H1. cbn [negb] in H1.
      destruct (0 <? List.length landmarksList)%nat.
      - destruct (processGestures_not2 _ _ _ _ L H1) as (i & m & r & p & wrist & tip & E).
        pose proof (singleHand_never_zooms now st i m r p wrist tip 0) as [_ F].
        rewrite <- E in F. exact F.
      - injection H1 as <- _. reflexivity. }
    unfold predictWebcam in H2. cbn [negb] in H2.
    destruct (0 <? List.length landmarksList')%nat.
    + apply processGestures_cases in H2.
      destruct H2 as [(w1 & w2 & E) | (i & m & r & p & wrist & tip & E)].
      * unfold twoHandZoom in E. rewrite P in E. injection E as _ ->. discriminate.
      * pose proof (singleHand_never_zooms now' st1 i m r p wrist tip z) as [F _].
        rewrite <- E in F. exact F.
    + injection H2 as _ <-. discriminate.
Qed.

Lemma hands_never_blend_witness :
  predictWebcam true 0 classifier_init [handAt 0; handAt 0.10]
  = Some (mkClassifier None (Some (0.10 - 0)) 0, None)
  /\ predictWebcam true 40 (mkClassifier None (Some (0.10 - 0)) 0) [victory]
     = Some (singleHand 40 (mkClassifier None (Some (0.10 - 0)) 0)
                        true true false false (mkPoint2 0.5 0.9) (mkPoint2 0.5 0.2))
  /\ forall v,
       snd (singleHand 40 (mkClassifier None (Some (0.10 - 0)) 0)
                       true true false false (mkPoint2 0.5 0.9) (mkPoint2 0.5 0.2))
       <> Some (ROTATE v).
Proof.
  assert (A : predictWebcam true 0 classifier_init [handAt 0; handAt 0.10]
              = Some (mkClassifier None (Some (0.10 - 0)) 0, None))
    by (apply two_hand_first_sample; lra).
  assert (B : predictWebcam true 40 (mkClassifier None (Some (0.10 - 0)) 0) [victory]
              = Some (singleHand 40 (mkClassifier None (Some (0.10 - 0)) 0)
                                 true true false false (mkPoint2 0.5 0.9) (mkPoint2 0.5 0.2)))
    by apply predictWebcam_pose.
  split; [exact A|]. split; [exact B|].
  exact (proj1 (hands_never_blend 0 40 classifier_init _ _ _ _ _ _ A B) eq_refl).
Defined.

Lemma fingerStates_total (hand : Hand) :
  (21 <= List.length hand)%nat -> exists f, fingerStates hand = Some f.
Proof.
  intros L. unfold fingerStates.
  destruct (nth_error_lt hand 8 ltac:(lia)) as (l8 & ->).
  destruct (nth_error_lt hand 6 ltac:(lia)) as (l6 & ->).
  destruct (nth_error_lt hand 12 ltac:(lia)) as (l12 & ->).
  destruct (nth_error_lt hand 10 ltac:(lia)) as (l10 & ->).
  destruct (nth_error_lt hand 16 ltac:(lia)) as (l16 & ->).
  destruct (nth_error_lt hand 14 ltac:(lia)) as (l14 & ->).
  destruct (nth_error_lt hand 20 ltac:(lia)) as (l20 & ->).
  destruct (nth_error_lt hand 18 ltac:(lia)) as (l18 & ->).
  cbn [bind]. eauto.
Qed.

(** X5. A tick never throws on hands of 21 landmarks (or more),
    whatever their number and whatever the state; a single hand of
    fewer than 21 landmarks makes it throw, on the read of a missing
    fingertip or joint. *)
Theorem well_formed_hands_never_throw (ready : bool) (now : Z) (st : ClassifierState)
    (landmarksList : list Hand) :
  (Forall (fun hand => (21 <= List.length hand)%nat) landmarksList ->
   exists out, predictWebcam ready now st landmarksList = Some out)
  /\ (forall hand,
        singleHandOf landmarksList = Some hand ->
        (List.length hand < 21)%nat ->
        predictWebcam true now st landmarksList = None).
Proof.
  split.
  - intros W. unfold predictWebcam. destruct ready; cbn [negb]; [|eauto].
    destruct landmarksList as [|hand rest]; [cbn; eauto|].
    cbn [List.length Nat.ltb Nat.leb].
    inversion W as [|? ? W1 W']; subst.
    destruct (Nat.eqb (List.length (hand :: rest)) 2) eqn:E.
    + destruct rest as [|h2 [|h3 rest]]; try discriminate E.
      inversion W' as [|? ? W2 _]; subst.
      destruct hand as [|w1 r1]; [cbn in W1; lia|].
      destruct h2 as [|w2 r2]; [cbn in W2; lia|].
      rewrite processGestures_two_hands. eauto.
    + unfold processGestures. rewrite E.
      change (nth_error (hand :: rest) 0) with (Some hand). cbn [bind].
      destruct (nth_error_lt hand 8 ltac:(lia)) as (l8 & ->).
      destruct (nth_error_lt hand 6 ltac:(lia)) as (l6 & ->).
      destruct (nth_error_lt hand 12 ltac:(lia)) as (l12 & ->).
      destruct (nth_error_lt hand 10 ltac:(lia)) as (l10 & ->).
      destruct (nth_error_lt hand 16 ltac:(lia)) as (l16 & ->).
      destruct (nth_error_lt hand 14 ltac:(lia)) as (l14 & ->).
      destruct (nth_error_lt hand 20 ltac:(lia)) as (l20 & ->).
      destruct (nth_error_lt hand 18 ltac:(lia)) as (l18 & ->).
      destruct (nth_error_lt hand 0 ltac:(lia)) as (w & ->).
      cbn [bind]. eauto.
  - intros hand S L. rewrite (predictWebcam_hands _ _ _ _ S).
    revert S. unfold singleHandOf, processGestures.
    destruct (Nat.eqb _ 2); [discriminate|]. intros ->. cbn [bind].
    assert (N : nth_error hand 20 = None) by (apply nth_error_None; lia).
    rewrite N.
    repeat match goal with
           | |- context [bind (nth_error hand ?k)] =>
               destruct (nth_error hand k); cbn [bind]; [|reflexivity]
           | |- context [bind None] => cbn [bind]
           end.
    reflexivity.
Qed.

Lemma well_formed_hands_never_throw_witness :
  (exists out, predictWebcam true 40 classifier_init [fist; openPalm; victory] = Some out)
  /\ predictWebcam true 40 classifier_init [firstn 20 openPalm] = None.
Proof.
  destruct (well_formed_hands_never_throw true 40 classifier_init [fist; openPalm; victory])
    as [T _].
  destruct (well_formed_hands_never_throw true 40 classifier_init [firstn 20 openPalm])
    as [_ F].
  split.
  - apply T. repeat constructor.
  - apply (F (firstn 20 openPalm)); [reflexivity | cbn; lia].
Defined.

Lemma singleHand_rotate (now : Z) (st : ClassifierState)
    (i m r p : bool) (wrist tip d : Point2) :
  snd (singleHand now st i m r p wrist tip) = Some (ROTATE d) ->
  Rabs (px d) > 0.002 \/ Rabs (py d) > 0.002.
Proof.
  unfold singleHand.
  destruct i, m, r, p; cbn [andb negb orb];
    repeat match goal with
           | |- context [if (?a && ?b)%bool then _ else _] => destruct (a && b)%bool
           | |- context [if (_ >? _)%Z then _ else _] => destruct (_ >? _)%Z
           end;
    cbn [snd]; try discriminate.
  destruct (lastHandPos st) as [last|]; [|discriminate].
  destruct (Num.gtb (Rabs (px wrist - px last)) 0.002) eqn:X;
    destruct (Num.gtb (Rabs (py wrist - py last)) 0.002) eqn:Y;
    cbn [orb]; try discriminate; intros H; injection H as <-; cbn [px py];
    unfold Num.gtb, Num.ltb in X, Y;
    repeat match goal with
           | H : (if Rlt_dec ?a ?b then true else false) = _ |- _ =>
               destruct (Rlt_dec a b); try discriminate H; clear H
           end; lra.
Qed.

(** X6. Whatever a tick shows and whatever the state, a [ZOOM] it
    emits has a value above 0.1 in magnitude (the 0.005 dead zone times
    the gain 20), and a [ROTATE] it emits moves by more than 0.002 on
    one axis at least. *)
Theorem emitted_gestures_clear_dead_zone (ready : bool) (now : Z)
    (st st' : ClassifierState) (landmarksList : list Hand) (gesture : HandGesture) :
  predictWebcam ready now st landmarksList = Some (st', Some gesture) ->
  match gesture with
  | ZOOM value => Rabs value > 0.1
  | ROTATE value => Rabs (px value) > 0.002 \/ Rabs (py value) > 0.002
  | _ => True
  end.
Proof.
  unfold predictWebcam. destruct ready; cbn [negb]; [|discriminate].
  destruct (0 <? List.length landmarksList)%nat.
  - intros H. apply processGestures_cases in H.
    destruct H as [(w1 & w2 & H) | (i & m & r & p & wrist & tip & H)].
    + destruct (twoHandZoom_event st w1 w2) as [N | (old & _ & D & N)];
        rewrite <- H in N; cbn [snd] in N; [discriminate N|].
      injection N as ->. rewrite Rabs_mult, (Rabs_pos_eq 20) by lra. lra.
    + destruct gesture; try exact I.
      * apply (singleHand_rotate now st i m r p wrist tip). rewrite <- H. reflexivity.
      * exfalso.
        apply (proj1 (singleHand_never_zooms now st i m r p wrist tip value)).
        rewrite <- H. reflexivity.
  - intros H. injection H as _ <-. exact I.
Qed.

Lemma emitted_gestures_clear_dead_zone_witness :
  predictWebcam true 40 (mkClassifier None (Some (0.10 - 0)) 0) [handAt 0; handAt 0.13]
  = Some (mkClassifier None (Some (0.13 - 0)) 0, Some (ZOOM ((0.13 - 0 - (0.10 - 0)) * 20)))
  /\ Rabs ((0.13 - 0 - (0.10 - 0)) * 20) > 0.1.
Proof.
  assert (A : predictWebcam true 40 (mkClassifier None (Some (0.10 - 0)) 0)
                            [handAt 0; handAt 0.13]
              = Some (mkClassifier None (Some (0.13 - 0)) 0,
                      Some (ZOOM ((0.13 - 0 - (0.10 - 0)) * 20))))
    by (apply two_hand_apart_sample; lra).
  split; [exact A|].
  exact (emitted_gestures_clear_dead_zone true 40 _ _ _ _ A).
Defined.

(** ** The hand branch of the frame callback *)

Lemma elevation_clamped (x : R) :
  0.1 <= Num.max 0.1 (Num.min (PI / 2 - 0.1) x) <= PI / 2 - 0.1.
Proof. apply clamp_bounds. pose proof PI2_1. lra. Qed.

Lemma on_sphere (r phi theta : R) :
  (r * sin phi * sin theta) ^ 2 + (r * cos phi) ^ 2 + (r * sin phi * cos theta) ^ 2 = r ^ 2.
Proof.
  pose proof (sin2_cos2 phi) as P. pose proof (sin2_cos2 theta) as T.
  unfold Rsqr in P, T.
  replace ((r * sin phi * sin theta) ^ 2 + (r * cos phi) ^ 2 + (r * sin phi * cos theta) ^ 2)
    with (r ^ 2 * (sin phi * sin phi * (sin theta * sin theta + cos theta * cos theta)
                   + cos phi * cos phi)) by ring.
  rewrite T, Rmult_1_r, P. ring.
Qed.

(** X7. A [HAND] frame that reads [ROTATE (dx, dy)] adds [5 dx] and
    [5 dy] to the stored rotation and moves the camera by 0.1 of the
    way to a goal on the sphere about the origin whose radius is the
    zoom radius; the goal is above the horizontal plane when the radius
    is positive, since the elevation is clamped to
    [0.1, PI / 2 - 0.1]; the camera is made to look at the origin. *)
Theorem rotate_frame_goal (value : Point2) (c : Controller) :
  exists goal,
    position (camera (handFrame (ROTATE value) c))
    = lerp (position (camera c)) goal 0.1
    /\ vx goal ^ 2 + vy goal ^ 2 + vz goal ^ 2 = zoom (handState c) ^ 2
    /\ (0 < zoom (handState c) -> 0 < vy goal)
    /\ rotation (handState (handFrame (ROTATE value) c))
       = mkPoint2 (px (rotation (handState c)) + px value * 5)
                  (py (rotation (handState c)) + py value * 5)
    /\ zoom (handState (handFrame (ROTATE value) c)) = zoom (handState c)
    /\ lookedAt (camera (handFrame (ROTATE value) c)) = Some (mkV3 0 0 0).
Proof.
  unfold handFrame. cbn [camera position lookedAt handState zoom rotation px py].
  eexists. split; [reflexivity|]. cbn [vx vy vz].
  split; [apply on_sphere|]. split; [|repeat split].
  intros Z.
  pose proof (elevation_clamped (py (rotation (handState c)) + py value * 5 + PI / 4)) as B.
  apply Rmult_lt_0_compat; [exact Z|].
  apply cos_gt_0; pose proof PI2_1; lra.
Qed.

Lemma v3length_zero (a : Vector3) : v3length a = 0 <-> a = mkV3 0 0 0.
Proof.
  destruct a as [x y z]. unfold v3length. cbn [vx vy vz]. split.
  - intros H. apply sqrt_eq_0 in H; [|nra].
    assert (x = 0) by nra. assert (y = 0) by nra. assert (z = 0) by nra.
    subst. reflexivity.
  - intros H. injection H as -> -> ->.
    replace (0 * 0 + 0 * 0 + 0 * 0) with 0 by ring. apply sqrt_0.
Qed.

Lemma normalize_scaled_length (a : Vector3) (s : R) :
  a <> mkV3 0 0 0 -> 0 <= s -> v3length (multiplyScalar (normalize a) s) = s.
Proof.
  intros Ha Hs. unfold normalize.
  destruct (Req_dec_T (v3length a) 0) as [E|E]; [apply v3length_zero in E; contradiction|].
  set (l := v3length a) in *.
  assert (L : l * l = vx a * vx a + vy a * vy a + vz a * vz a).
  { unfold l, v3length. apply sqrt_sqrt. nra. }
  unfold v3length, multiplyScalar. cbn [vx vy vz].
  apply sqrt_lem_1; [nra | exact Hs |].
  replace (vx a * (1 / l) * s * (vx a * (1 / l) * s)
           + vy a * (1 / l) * s * (vy a * (1 / l) * s)
           + vz a * (1 / l) * s * (vz a * (1 / l) * s))
    with ((vx a * vx a + vy a * vy a + vz a * vz a) * (s * s) / (l * l))
    by (field; exact E).
  rewrite <- L. field. exact E.
Qed.

(** X8. A [HAND] frame that reads [ZOOM] moves the camera by 0.1 of the
    way to the point of its own direction at the new zoom radius: the
    goal is at that radius from the origin. A camera exactly at the
    origin has no direction, and the frame leaves it at the origin. *)
Theorem zoom_frame_goal (value : R) (c : Controller) :
  position (camera (handFrame (ZOOM value) c))
  = lerp (position (camera c))
         (multiplyScalar (normalize (position (camera c)))
                         (zoom (handState (handFrame (ZOOM value) c))))
         0.1
  /\ (position (camera c) <> mkV3 0 0 0 ->
      v3length (multiplyScalar (normalize (position (camera c)))
                               (zoom (handState (handFrame (ZOOM value) c))))
      = zoom (handState (handFrame (ZOOM value) c)))
  /\ (position (camera c) = mkV3 0 0 0 ->
      position (camera (handFrame (ZOOM value) c)) = mkV3 0 0 0).
Proof.
  split; [reflexivity|]. split.
  - intros H. apply normalize_scaled_length; [exact H|].
    unfold handFrame. cbn [handState zoom].
    pose proof (clamp_bounds 50 600 (zoom (handState c) - value)). lra.
  - intros H. unfold handFrame. cbn [camera position]. rewrite H.
    unfold normalize, multiplyScalar, lerp. cbn [vx vy vz]. f_equal; ring.
Qed.

Lemma zoom_frame_goal_witness :
  position (camera controller_init) <> mkV3 0 0 0
  /\ v3length (multiplyScalar (normalize (position (camera controller_init)))
                              (zoom (handState (handFrame (ZOOM 10) controller_init))))
     = zoom (handState (handFrame (ZOOM 10) controller_init)).
Proof.
  assert (N : position (camera controller_init) <> mkV3 0 0 0).
  { cbn. intros H. injection H as H _. lra. }
  split; [exact N|].
  exact (proj1 (proj2 (zoom_frame_goal 10 controller_init)) N).
Defined.

(** ** Runs of frames *)

Lemma frame_keeps_state
    (controls_update : OrbitControls -> Camera -> Camera)
    (translateX translateZ : Camera -> R -> Camera) (frames : list (R * R)) :
  forall w,
    appState (run controls_update translateX translateZ w (asFrames frames)) = appState w
    /\ gestureRef (run controls_update translateX translateZ w (asFrames frames))
       = gestureRef w.
Proof.
  unfold run, asFrames. induction frames as [|[elapsed delta] rest IH]; intros w;
    cbn [map fold_left fst snd]; [split; reflexivity|].
  destruct (IH (step controls_update translateX translateZ w (Frame elapsed delta)))
    as [-> ->].
  split; reflexivity.
Qed.

Lemma run_frame_cons
    (controls_update : OrbitControls -> Camera -> Camera)
    (translateX translateZ : Camera -> R -> Camera)
    (w : World) (f : R * R) (frames : list (R * R)) :
  run controls_update translateX translateZ w (asFrames (f :: frames))
  = run controls_update translateX translateZ
        (step controls_update translateX translateZ w (Frame (fst f) (snd f)))
        (asFrames frames).
Proof. reflexivity. Qed.

(** X9. In [HAND] mode, while the stored gesture is [NONE],
    [EXIT_FOCUS] or [FOCUS], the frame callback writes nothing to the
    camera: it returns it as it found it, calls no [update], and only
    disables the pointer helper, whose target it keeps. The stored
    rotation and the zoom radius, which nothing but this callback
    writes, stay as they are over any number of such frames. *)
Theorem hand_frames_idle
    (controls_update : OrbitControls -> Camera -> Camera)
    (translateX translateZ : Camera -> R -> Camera)
    (w : World) (frames : list (R * R)) :
  controlMode (appState w) = HAND ->
  poseless (gestureRef w) ->
  (forall elapsed delta (c : Controller),
      camera (useFrame controls_update (appState w) (Some (gestureRef w)) elapsed delta c)
      = camera c
      /\ option_map target
           (controlsRef (useFrame controls_update (appState w) (Some (gestureRef w))
                                  elapsed delta c))
         = option_map target (controlsRef c)
      /\ option_map enabled
           (controlsRef (useFrame controls_update (appState w) (Some (gestureRef w))
                                  elapsed delta c))
         = option_map (fun _ => false) (controlsRef c))
  /\ rotation (handState (controller
                            (run controls_update translateX translateZ w (asFrames frames))))
     = rotation (handState (controller w))
  /\ zoom (handState (controller
                        (run controls_update translateX translateZ w (asFrames frames))))
     = zoom (handState (controller w)).
Proof.
  intros M G. split.
  - intros elapsed delta c. unfold useFrame. rewrite M. cbn [ControlMode_eqb].
    unfold handFrame.
    destruct (gestureRef w); try contradiction;
      cbn [camera controlsRef]; destruct (controlsRef c); repeat split.
  - revert w M G. induction frames as [|f rest IH]; intros w M G; [split; reflexivity|].
    rewrite run_frame_cons.
    set (w1 := step controls_update translateX translateZ w (Frame (fst f) (snd f))).
    assert (S : appState w1 = appState w /\ gestureRef w1 = gestureRef w
                /\ rotation (handState (controller w1)) = rotation (handState (controller w))
                /\ zoom (handState (controller w1)) = zoom (handState (controller w))).
    { unfold w1. cbn [step]. unfold with_controller, useFrame.
      cbn [appState gestureRef controller]. rewrite M. cbn [ControlMode_eqb].
      unfold handFrame. destruct (gestureRef w); try contradiction; repeat split. }
    destruct S as (Sa & Sg & Sr & Sz).
    destruct (IH w1) as (Ir & Iz); [rewrite Sa; exact M | rewrite Sg; exact G|].
    rewrite Ir, Iz. auto.
Qed.

Lemma hand_frames_idle_witness :
  controlMode (appState (run no_update no_translate no_translate world_init
                             [SetControlMode HAND])) = HAND
  /\ poseless (gestureRef (run no_update no_translate no_translate world_init
                               [SetControlMode HAND]))
  /\ zoom (handState
             (controller
                (run no_update no_translate no_translate
                     (run no_update no_translate no_translate world_init
                          [SetControlMode HAND])
                     (asFrames [(1, 1 / 60); (2, 1 / 60); (3, 1 / 60)]))))
     = 300.
Proof.
  split; [reflexivity|]. split; [exact I|].
  rewrite (proj2 (proj2 (hand_frames_idle no_update no_translate no_translate
                           (run no_update no_translate no_translate world_init
                                [SetControlMode HAND])
                           [(1, 1 / 60); (2, 1 / 60); (3, 1 / 60)] eq_refl I))).
  reflexivity.
Defined.

(** X10. In [AUTO] mode the orbit angle after a run of frames is the
    angle before plus 0.05 times the time the frames span: the camera
    turns at 0.05 rad/s whatever the frame rate. *)
Theorem autopilot_angle_accumulates
    (controls_update : OrbitControls -> Camera -> Camera)
    (translateX translateZ : Camera -> R -> Camera)
    (w : World) (frames : list (R * R)) :
  controlMode (appState w) = AUTO ->
  autoOrbitRef (controller (run controls_update translateX translateZ w (asFrames frames)))
  = autoOrbitRef (controller w) + 0.05 * totalDelta frames.
Proof.
  revert w. induction frames as [|f rest IH]; intros w M.
  - cbn. ring.
  - rewrite run_frame_cons.
    set (w1 := step controls_update translateX translateZ w (Frame (fst f) (snd f))).
    assert (S : appState w1 = appState w
                /\ autoOrbitRef (controller w1) = autoOrbitRef (controller w) + snd f * 0.05).
    { unfold w1. cbn [step]. unfold with_controller, useFrame.
      cbn [appState controller]. rewrite M. cbn [ControlMode_eqb]. split; reflexivity. }
    destruct S as (Sa & So).
    rewrite (IH w1) by (rewrite Sa; exact M).
    rewrite So. cbn [totalDelta fold_right]. fold (totalDelta rest). ring.
Qed.

Lemma autopilot_angle_accumulates_witness :
  controlMode (appState (run no_update no_translate no_translate world_init
                             [SetControlMode AUTO])) = AUTO
  /\ autoOrbitRef
       (controller
          (run no_update no_translate no_translate
               (run no_update no_translate no_translate world_init [SetControlMode AUTO])
               (asFrames [(1, 1); (3, 2)])))
     = autoOrbitRef (controller (run no_update no_translate no_translate world_init
                                     [SetControlMode AUTO]))
       + 0.05 * totalDelta [(1, 1); (3, 2)].
Proof.
  split; [reflexivity|].
  exact (autopilot_angle_accumulates no_update no_translate no_translate
           (run no_update no_translate no_translate world_init [SetControlMode AUTO])
           [(1, 1); (3, 2)] eq_refl).
Defined.

Lemma onGesture_controller_refs (gesture : HandGesture) (w : World) :
  autoOrbitRef (controller (onGesture gesture w)) = autoOrbitRef (controller w)
  /\ camera (controller (onGesture gesture w)) = camera (controller w).
Proof.
  unfold onGesture, handleGesture.
  destruct gesture; try (split; reflexivity).
  destruct (truthy (handlerFocus w)); [|split; reflexivity].
  unfold setFocusedBody. rewrite render_controller. split; reflexivity.
Qed.

(** X11. The orbit angle of the autopilot changes in the frames of
    [AUTO] mode and nowhere else: every other frame, every video
    sample, every change of mode, focus or speed and every key press
    leaves it as it is, so the autopilot resumes from where it left. *)
Theorem auto_orbit_frozen
    (controls_update : OrbitControls -> Camera -> Camera)
    (translateX translateZ : Camera -> R -> Camera) (w : World) (e : Event) :
  (forall elapsed delta, e = Frame elapsed delta -> controlMode (appState w) <> AUTO) ->
  autoOrbitRef (controller (step controls_update translateX translateZ w e))
  = autoOrbitRef (controller w).
Proof.
  intros H. destruct e as [elapsed delta|now landmarks|mode|focused|s|key]; cbn [step].
  - specialize (H elapsed delta eq_refl).
    unfold with_controller, useFrame. cbn [controller].
    destruct (controlMode (appState w)) eqn:M; try contradiction; cbn [ControlMode_eqb].
    + destruct (truthy (focusedBody (appState w))).
      * unfold focusFrame. destruct (findPlanet _); [|reflexivity].
        destruct (controlsRef (controller w)); reflexivity.
      * unfold freeFrame. destruct (controlsRef (controller w)); reflexivity.
    + destruct (truthy (focusedBody (appState w))).
      * unfold focusFrame. destruct (findPlanet _); [|reflexivity].
        destruct (controlsRef (controller w)); reflexivity.
      * unfold freeFrame. destruct (controlsRef (controller w)); reflexivity.
    + unfold handFrame. destruct (gestureRef w); reflexivity.
  - destruct (sampling w); [|reflexivity].
    destruct (predictWebcam true now (classifier w) landmarks) as [[st [gesture|]]|];
      try reflexivity.
    rewrite (proj1 (onGesture_controller_refs gesture _)). reflexivity.
  - unfold setControlMode. rewrite render_controller. reflexivity.
  - unfold setFocusedBody. rewrite render_controller. reflexivity.
  - unfold setSimulationSpeed. rewrite render_controller. reflexivity.
  - destruct (handleKeyDown translateX translateZ (appState w) key (camera (controller w)))
      as [cam [|]]; [|reflexivity].
    unfold setFocusedBody. rewrite render_controller. reflexivity.
Qed.

Lemma auto_orbit_frozen_witness :
  (forall elapsed delta,
      SetControlMode MOUSE = Frame elapsed delta ->
      controlMode (appState (run no_update no_translate no_translate world_init
                                 [SetControlMode AUTO; Frame 1 2])) <> AUTO)
  /\ autoOrbitRef
       (controller
          (step no_update no_translate no_translate
                (run no_update no_translate no_translate world_init
                     [SetControlMode AUTO; Frame 1 2])
                (SetControlMode MOUSE)))
     = autoOrbitRef
         (controller (run no_update no_translate no_translate world_init
                          [SetControlMode AUTO; Frame 1 2])).
Proof.
  assert (H : forall elapsed delta,
             SetControlMode MOUSE = Frame elapsed delta ->
             controlMode (appState (run no_update no_translate no_translate world_init
                                        [SetControlMode AUTO; Frame 1 2])) <> AUTO)
    by (intros elapsed delta E; discriminate E).
  split; [exact H|].
  exact (auto_orbit_frozen no_update no_translate no_translate _ (SetControlMode MOUSE) H).
Defined.

(** X12. In [MOUSE] or [KEYBOARD] mode with a body of the catalog
    focused, the frame callback closes the gaps by fixed factors: the
    target with which it calls [update] is off the body's position by
    0.9 of what the target it found was, and the camera it passes to
    [update] is off its goal by 0.95 of what the camera it found was,
    component by component. The camera's goal is displaced from the
    body by 5, 3 and 5 radii at every time and speed. For a body at
    the centre the body's position is the origin, so the target is
    scaled by 0.9. The pointer helper's [enabled] flag, the orbit angle
    and the hand state are kept. *)
Theorem focus_frame_contracts
    (controls_update : OrbitControls -> Camera -> Camera)
    (a : AppState) (g : option HandGesture) (elapsed delta : R) (c : Controller)
    (planet : PlanetData) (ctl : OrbitControls) :
  controlMode a = MOUSE \/ controlMode a = KEYBOARD ->
  findPlanet (focusedBody a) = Some planet ->
  controlsRef c = Some ctl ->
  exists (ctl' : OrbitControls) (cam' : Camera),
    useFrame controls_update a g elapsed delta c
    = mkController (controls_update ctl' cam') (Some ctl') (autoOrbitRef c) (handState c)
    /\ enabled ctl' = enabled ctl
    /\ lookedAt cam' = lookedAt (camera c)
    /\ (vx (target ctl') - vx (targetPos planet a elapsed)
        = 0.9 * (vx (target ctl) - vx (targetPos planet a elapsed))
        /\ vy (target ctl') - vy (targetPos planet a elapsed)
           = 0.9 * (vy (target ctl) - vy (targetPos planet a elapsed))
        /\ vz (target ctl') - vz (targetPos planet a elapsed)
           = 0.9 * (vz (target ctl) - vz (targetPos planet a elapsed)))
    /\ (vx (position cam') - vx (offset planet a elapsed)
        = 0.95 * (vx (position (camera c)) - vx (offset planet a elapsed))
        /\ vy (position cam') - vy (offset planet a elapsed)
           = 0.95 * (vy (position (camera c)) - vy (offset planet a elapsed))
        /\ vz (position cam') - vz (offset planet a elapsed)
           = 0.95 * (vz (position (camera c)) - vz (offset planet a elapsed)))
    /\ (vx (offset planet a elapsed) - vx (targetPos planet a elapsed) = 5 * radius planet
        /\ vy (offset planet a elapsed) - vy (targetPos planet a elapsed) = 3 * radius planet
        /\ vz (offset planet a elapsed) - vz (targetPos planet a elapsed) = 5 * radius planet)
    /\ (distance planet = 0 -> target ctl' = multiplyScalar (target ctl) 0.9).
Proof.
  intros M P C.
  exists (mkControls (lerp (target ctl) (targetPos planet a elapsed) 0.1) (enabled ctl)),
         (mkCamera (lerp (position (camera c)) (offset planet a elapsed) 0.05)
                   (lookedAt (camera c))).
  split; [|split; [reflexivity|split; [reflexivity|]]].
  - unfold useFrame. rewrite (findPlanet_truthy _ _ P).
    assert (E : ControlMode_eqb (controlMode a) AUTO = false
                /\ ControlMode_eqb (controlMode a) HAND = false)
      by (destruct M as [-> | ->]; split; reflexivity).
    destruct E as [-> ->].
    assert (F : focusFrame controls_update a elapsed c
                = mkController
                    (controls_update
                       (mkControls (lerp (target ctl) (targetPos planet a elapsed) 0.1)
                                   (enabled ctl))
                       (mkCamera (lerp (position (camera c)) (offset planet a elapsed) 0.05)
                                 (lookedAt (camera c))))
                    (Some (mkControls (lerp (target ctl) (targetPos planet a elapsed) 0.1)
                                      (enabled ctl)))
                    (autoOrbitRef c) (handState c))
      by (unfold focusFrame; rewrite P, C; reflexivity).
    destruct g; exact F.
  - cbn [target position]. unfold lerp. cbn [vx vy vz].
    split; [repeat split; lra|]. split; [repeat split; lra|].
    split.
    + unfold offset, targetPos. cbn [vx vy vz]. repeat split; lra.
    + intros D. unfold targetPos, multiplyScalar. rewrite D. cbn [vx vy vz].
      f_equal; lra.
Qed.

Lemma focus_frame_contracts_witness :
  exists (ctl' : OrbitControls) (cam' : Camera),
    useFrame no_update (mkAppState KEYBOARD (Some "sun"%string) 1) (Some NONE) 1 (1 / 60)
             (mkController (mkCamera (mkV3 0 150 300) None)
                           (Some (mkControls (mkV3 100 0 50) true)) 0
                           (handState controller_init))
    = mkController (no_update ctl' cam') (Some ctl') 0 (handState controller_init)
    /\ target ctl' = multiplyScalar (mkV3 100 0 50) 0.9.
Proof.
  destruct (focus_frame_contracts no_update (mkAppState KEYBOARD (Some "sun"%string) 1)
              (Some NONE) 1 (1 / 60)
              (mkController (mkCamera (mkV3 0 150 300) None)
                            (Some (mkControls (mkV3 100 0 50) true)) 0
                            (handState controller_init))
              (mkPlanet "sun" 12 0 0 0.005 (Some 0%nat) false)
              (mkControls (mkV3 100 0 50) true)
              (or_intror eq_refl) eq_refl eq_refl)
    as (ctl' & cam' & E & _ & _ & _ & _ & _ & D).
  exists ctl', cam'. split; [exact E | exact (D eq_refl)].
Defined.

(** ** Keys *)

Lemma with_controller_same (w : World) :
  with_controller
    (mkController (camera (controller w)) (controlsRef (controller w))
                  (autoOrbitRef (controller w)) (handState (controller w))) w
  = w.
Proof. destruct w as [a g cl s h [cam ctl ao hs] tw]. reflexivity. Qed.

Lemma handleKeyDown_elevation (translateX translateZ : Camera -> R -> Camera)
    (a : AppState) (cam : Camera) :
  controlMode a = KEYBOARD ->
  handleKeyDown translateX translateZ a "w" cam
  = (mkCamera (mkV3 (vx (position cam)) (vy (position cam) + 8) (vz (position cam)))
              (lookedAt cam), false)
  /\ handleKeyDown translateX translateZ a "s" cam
     = (mkCamera (mkV3 (vx (position cam)) (vy (position cam) - 8) (vz (position cam)))
                 (lookedAt cam), false).
Proof. intros M. unfold handleKeyDown. rewrite M. split; reflexivity. Qed.

(** X13. Outside [KEYBOARD] mode a key press changes nothing at all,
    whatever the key. In [KEYBOARD] mode the key [w] raises the camera
    by 8 and [s] lowers it by 8, so one after the other restores the
    state. *)
Theorem keys_only_in_keyboard_mode
    (controls_update : OrbitControls -> Camera -> Camera)
    (translateX translateZ : Camera -> R -> Camera) (w : World) :
  (controlMode (appState w) <> KEYBOARD ->
   forall key, step controls_update translateX translateZ w (KeyDown key) = w)
  /\ (controlMode (appState w) = KEYBOARD ->
      vy (position (camera (controller
            (step controls_update translateX translateZ w (KeyDown "w")))))
      = vy (position (camera (controller w))) + 8
      /\ run controls_update translateX translateZ w [KeyDown "w"; KeyDown "s"] = w).
Proof.
  split.
  - intros M key. cbn [step]. unfold handleKeyDown.
    destruct (controlMode (appState w)) eqn:E; try contradiction;
      cbn [ControlMode_eqb negb]; apply with_controller_same.
  - intros M. unfold run. cbn [fold_left step].
    rewrite (proj1 (handleKeyDown_elevation translateX translateZ _ _ M)).
    unfold with_controller at 2. cbn [appState controller camera].
    rewrite (proj2 (handleKeyDown_elevation translateX translateZ _ _ M)).
    unfold with_controller.
    cbn [controller camera position vx vy vz lookedAt controlsRef autoOrbitRef handState
         appState gestureRef classifier sampling handlerFocus tweens].
    split; [reflexivity|].
    destruct w as [a g cl s h [[[x y z] look] ctl ao hs] tw].
    cbn [controller camera position vx vy vz lookedAt controlsRef autoOrbitRef handState
         appState gestureRef classifier sampling handlerFocus tweens].
    do 4 f_equal. lra.
Qed.

Lemma keys_only_in_keyboard_mode_witness :
  controlMode (appState world_init) <> KEYBOARD
  /\ step no_update no_translate no_translate world_init (KeyDown " ") = world_init.
Proof.
  assert (M : controlMode (appState world_init) <> KEYBOARD)
    by (intros F; discriminate F).
  split; [exact M|].
  exact (proj1 (keys_only_in_keyboard_mode no_update no_translate no_translate world_init)
               M " "%string).
Defined.

(** X14. In [KEYBOARD] mode the space key clears a focused body and
    with it starts the transition to the overview pose: the two
    [gsap.to] calls, to (0, 150, 300) and to the origin; the camera
    itself is not moved by the key. *)
Theorem space_clears_focus
    (controls_update : OrbitControls -> Camera -> Camera)
    (translateX translateZ : Camera -> R -> Camera) (w : World) (ctl : OrbitControls) :
  controlMode (appState w) = KEYBOARD ->
  truthy (focusedBody (appState w)) = true ->
  controlsRef (controller w) = Some ctl ->
  focusedBody (appState (step controls_update translateX translateZ w (KeyDown " "))) = None
  /\ tweens (step controls_update translateX translateZ w (KeyDown " "))
     = [mkTween ControlsTarget (mkV3 0 0 0) 2 "power3.inOut";
        mkTween CameraPosition (mkV3 0 150 300) 2 "power3.inOut"] ++ tweens w
  /\ camera (controller (step controls_update translateX translateZ w (KeyDown " ")))
     = camera (controller w).
Proof.
  intros M F C. cbn [step]. unfold handleKeyDown. rewrite M.
  cbn [ControlMode_eqb negb String.eqb Ascii.eqb Bool.eqb].
  unfold setFocusedBody.
  rewrite render_appState, render_tweens, render_controller.
  unfold with_controller. cbn [appState controller tweens focusedBody controlMode camera].
  split; [reflexivity|]. split; [|reflexivity].
  rewrite mode_eqb_refl. cbn [negb orb].
  destruct (focusedBody (appState w)) as [name|]; [|discriminate F].
  cbn [focus_eqb negb]. unfold focusEffect.
  cbn [focusedBody controlMode truthy negb controlsRef]. rewrite M, C. reflexivity.
Qed.

Lemma space_clears_focus_witness :
  focusedBody
    (appState
       (step no_update no_translate no_translate
             (run no_update no_translate no_translate world_init
                  [SetControlMode KEYBOARD; SetFocusedBody (Some "mars"%string)])
             (KeyDown " "))) = None.
Proof.
  exact (proj1 (space_clears_focus no_update no_translate no_translate
                  (run no_update no_translate no_translate world_init
                       [SetControlMode KEYBOARD; SetFocusedBody (Some "mars"%string)])
                  (mkControls (mkV3 0 0 0) false) eq_refl eq_refl eq_refl)).
Defined.

(** ** The focus effect and the catalog *)

(** X15. The overview transition is started by the focus effect on
    every change of mode or focus that ends with no body focused and a
    mode other than [AUTO]: so also on a change between two such modes
    while nothing is focused. A change that ends in [AUTO] mode or with
    a body focused, and a change of the simulation speed, start
    nothing. *)
Theorem transition_starts
    (w : World) (ctl : OrbitControls) (mode : ControlMode) (focused : option string) (s : R) :
  controlsRef (controller w) = Some ctl ->
  (truthy (focusedBody (appState w)) = false ->
   mode <> controlMode (appState w) -> mode <> AUTO ->
   tweens (setControlMode mode w)
   = [mkTween ControlsTarget (mkV3 0 0 0) 2 "power3.inOut";
      mkTween CameraPosition (mkV3 0 150 300) 2 "power3.inOut"] ++ tweens w)
  /\ tweens (setControlMode AUTO w) = tweens w
  /\ (truthy focused = true -> tweens (setFocusedBody focused w) = tweens w)
  /\ (truthy (focusedBody (appState w)) = true ->
      tweens (setControlMode mode w) = tweens w)
  /\ tweens (setSimulationSpeed s w) = tweens w.
Proof.
  intros C. unfold setControlMode, setFocusedBody, setSimulationSpeed.
  rewrite !render_tweens. cbn [controlMode focusedBody].
  split; [|split; [|split; [|split]]].
  - intros F Hm Ha.
    assert (E : ControlMode_eqb (controlMode (appState w)) mode = false).
    { destruct (controlMode (appState w)), mode; try reflexivity; contradiction. }
    rewrite E. cbn [negb orb]. unfold focusEffect. cbn [focusedBody controlMode].
    rewrite F, C. cbn [negb].
    destruct mode; try contradiction; reflexivity.
  - unfold focusEffect. cbn [controlMode ControlMode_eqb].
    destruct (negb _ || negb _); [destruct (negb _)|]; reflexivity.
  - intros F. unfold focusEffect. cbn [focusedBody]. rewrite F. cbn [negb].
    destruct (negb _ || negb _); reflexivity.
  - intros F. unfold focusEffect. cbn [focusedBody]. rewrite F. cbn [negb].
    destruct (negb _ || negb _); reflexivity.
  - rewrite mode_eqb_refl.
    assert (E : focus_eqb (focusedBody (appState w)) (focusedBody (appState w)) = true).
    { destruct (focusedBody (appState w)) as [x|]; [apply String.eqb_refl | reflexivity]. }
    rewrite E. reflexivity.
Qed.

Lemma transition_starts_witness :
  controlsRef (controller world_init) = Some (mkControls (mkV3 0 0 0) true)
  /\ tweens (setControlMode KEYBOARD world_init)
     = [mkTween ControlsTarget (mkV3 0 0 0) 2 "power3.inOut";
        mkTween CameraPosition (mkV3 0 150 300) 2 "power3.inOut"] ++ tweens world_init.
Proof.
  split; [reflexivity|].
  apply (proj1 (transition_starts world_init (mkControls (mkV3 0 0 0) true)
                  KEYBOARD None 1 eq_refl)).
  - reflexivity.
  - intros F; discriminate F.
  - intros F; discriminate F.
Defined.

(** X16. Every body of the catalog is found again by its id: when a
    quick-select button or a click on a planet sets [focusedBody] to
    the id of a body, the panel of [UIOverlay] and the focus branch of
    the camera both resolve to that very body. An id that no body has,
    the empty id and no id resolve to nothing, and the panel is never
    shown without the camera finding the same body. *)
Theorem catalog_lookup (a : AppState) :
  (forall planet,
      In planet PLANET_DATA ->
      findPlanet (Some (id planet)) = Some planet
      /\ activePlanet (mkAppState (controlMode a) (Some (id planet)) (simulationSpeed a))
         = Some planet)
  /\ findPlanet None = None
  /\ findPlanet (Some ""%string) = None
  /\ findPlanet (Some "pluto"%string) = None
  /\ activePlanet a = findPlanet (focusedBody a)
  /\ (forall planet, findPlanet (focusedBody a) = Some planet ->
                     In planet PLANET_DATA /\ focusedBody a = Some (id planet)).
Proof.
  split; [|split; [|split; [|split; [|split]]]]; try reflexivity.
  - intros planet H. unfold PLANET_DATA in H. cbn [In] in H.
    repeat (destruct H as [<- | H]; [split; reflexivity|]). contradiction.
  - unfold activePlanet. destruct (focusedBody a) as [[|ch rest]|]; reflexivity.
  - intros planet H. destruct (focusedBody a) as [name|]; [|discriminate H].
    unfold findPlanet in H. pose proof (find_some _ _ H) as [I E].
    apply String.eqb_eq in E. subst name. split; [exact I | reflexivity].
Qed.

Lemma catalog_lookup_witness :
  In (mkPlanet "earth" 2.4 75 1.0 0.02 (Some 1%nat) false) PLANET_DATA
  /\ findPlanet (Some "earth"%string)
     = Some (mkPlanet "earth" 2.4 75 1.0 0.02 (Some 1%nat) false).
Proof.
  assert (E : In (mkPlanet "earth" 2.4 75 1.0 0.02 (Some 1%nat) false) PLANET_DATA).
  { unfold PLANET_DATA. cbn [In]. do 3 right. left. reflexivity. }
  split; [exact E|].
  exact (proj1 (proj1 (catalog_lookup appState_init) _ E)).
Defined.

(** ** Orbits of planets and moons *)

Lemma circle (t d : R) : (cos t * d) ^ 2 + (sin t * d) ^ 2 = d ^ 2.
Proof.
  pose proof (sin2_cos2 t) as H. unfold Rsqr in H.
  replace ((cos t * d) ^ 2 + (sin t * d) ^ 2)
    with ((sin t * sin t + cos t * cos t) * d ^ 2) by ring.
  rewrite H. ring.
Qed.

(** X17. A frame puts a planet off the centre on the circle of its
    distance about the vertical axis, and a moon on the circle of its
    own distance inside the planet's group, both at the height they
    had; the moon that [Planet] renders circles at 2.5 times the
    planet's radius. One full turn of a planet takes
    [10 PI / (speed * simulationSpeed)] seconds. *)
Theorem orbits_are_circles (data : PlanetData) (a : AppState) (elapsed : R)
    (pos : Vector3) :
  (0 < distance data ->
   vx (Planet_useFrame data a elapsed pos) ^ 2 + vz (Planet_useFrame data a elapsed pos) ^ 2
   = distance data ^ 2
   /\ vy (Planet_useFrame data a elapsed pos) = vy pos)
  /\ (forall moonDistance moonSpeed,
        vx (Moon_useFrame moonDistance moonSpeed a elapsed pos) ^ 2
        + vz (Moon_useFrame moonDistance moonSpeed a elapsed pos) ^ 2
        = moonDistance ^ 2
        /\ vy (Moon_useFrame moonDistance moonSpeed a elapsed pos) = vy pos)
  /\ vx (Planet_moon data a elapsed pos) ^ 2 + vz (Planet_moon data a elapsed pos) ^ 2
     = (2.5 * radius data) ^ 2
  /\ (speed data * simulationSpeed a <> 0 ->
      Planet_useFrame data a (elapsed + 10 * PI / (speed data * simulationSpeed a)) pos
      = Planet_useFrame data a elapsed pos).
Proof.
  split; [|split; [|split]].
  - intros D. unfold Planet_useFrame. rewrite gtb_true by lra. cbn [vx vy vz].
    split; [apply circle | reflexivity].
  - intros md ms. unfold Moon_useFrame. cbn [vx vy vz]. split; [apply circle | reflexivity].
  - unfold Planet_moon, Moon_useFrame. cbn [vx vy vz]. rewrite circle. ring.
  - intros K. unfold Planet_useFrame.
    assert (T : (elapsed + 10 * PI / (speed data * simulationSpeed a))
                * speed data * simulationSpeed a * 0.2
                = elapsed * speed data * simulationSpeed a * 0.2 + 2 * INR 1 * PI).
    { change (INR 1) with 1. replace 0.2 with (/ 5) by lra. field.
      split; intros Z; apply K; rewrite Z; ring. }
    rewrite T, cos_period, sin_period. reflexivity.
Qed.

Lemma orbits_are_circles_witness :
  0 < distance (mkPlanet "earth" 2.4 75 1.0 0.02 (Some 1%nat) false)
  /\ vx (Planet_useFrame (mkPlanet "earth" 2.4 75 1.0 0.02 (Some 1%nat) false)
                         appState_init 7 origin) ^ 2
     + vz (Planet_useFrame (mkPlanet "earth" 2.4 75 1.0 0.02 (Some 1%nat) false)
                           appState_init 7 origin) ^ 2
     = distance (mkPlanet "earth" 2.4 75 1.0 0.02 (Some 1%nat) false) ^ 2.
Proof.
  assert (D : 0 < distance (mkPlanet "earth" 2.4 75 1.0 0.02 (Some 1%nat) false))
    by (cbn [distance]; lra).
  split; [exact D|].
  exact (proj1 (proj1 (orbits_are_circles
                         (mkPlanet "earth" 2.4 75 1.0 0.02 (Some 1%nat) false)
                         appState_init 7 origin) D)).
Defined.

(** X18. With the simulation speed at 0 the orbit angle is 0 at every
    elapsed time: a frame puts each planet off the centre at
    [(distance, 0)] and each moon at [(moonDistance, 0)], whatever the
    time. The shell of a planet keeps turning all the same, by
    [rotationSpeed] a frame, as at speed 1; at any other speed it turns
    by [rotationSpeed * simulationSpeed]. *)
Theorem paused_simulation (data : PlanetData) (a : AppState) (elapsed : R)
    (pos : Vector3) (rotationY : R) :
  (simulationSpeed a = 0 ->
   (0 < distance data ->
    Planet_useFrame data a elapsed pos = mkV3 (distance data) (vy pos) 0)
   /\ (forall moonDistance moonSpeed,
         Moon_useFrame moonDistance moonSpeed a elapsed pos = mkV3 moonDistance (vy pos) 0)
   /\ Planet_rotation data a rotationY = rotationY + rotationSpeed data)
  /\ (simulationSpeed a <> 0 ->
      Planet_rotation data a rotationY
      = rotationY + rotationSpeed data * simulationSpeed a).
Proof.
  split.
  - intros S. split; [|split].
    + intros D. unfold Planet_useFrame. rewrite gtb_true by lra. rewrite S.
      replace (elapsed * speed data * 0 * 0.2) with 0 by lra.
      rewrite cos_0, sin_0. f_equal; ring.
    + intros md ms. unfold Moon_useFrame. rewrite S.
      replace (elapsed * ms * 0 * 0.5) with 0 by lra.
      rewrite cos_0, sin_0. f_equal; ring.
    + unfold Planet_rotation, orElse. rewrite S.
      destruct (Req_dec_T 0 0) as [_|N]; [ring | contradiction].
  - intros S. unfold Planet_rotation, orElse.
    destruct (Req_dec_T (simulationSpeed a) 0) as [E|_]; [contradiction | reflexivity].
Qed.

Lemma paused_simulation_witness :
  simulationSpeed (mkAppState MOUSE None 0) = 0
  /\ Planet_rotation (mkPlanet "earth" 2.4 75 1.0 0.02 (Some 1%nat) false)
                     (mkAppState MOUSE None 0) 1
     = 1 + rotationSpeed (mkPlanet "earth" 2.4 75 1.0 0.02 (Some 1%nat) false).
Proof.
  split; [reflexivity|].
  exact (proj2 (proj2 (proj1 (paused_simulation
                                (mkPlanet "earth" 2.4 75 1.0 0.02 (Some 1%nat) false)
                                (mkAppState MOUSE None 0) 5 origin 1) eq_refl))).
Defined.

(** ** Particles *)

Lemma Int_part_le (x y : R) : x <= y -> (Int_part x <= Int_part y)%Z.
Proof.
  intros H. pose proof (base_Int_part x) as [A _]. pose proof (base_Int_part y) as [_ B].
  assert (L : IZR (Int_part x) < IZR (Int_part y + 1)) by (rewrite plus_IZR; lra).
  apply lt_IZR in L. lia.
Qed.

(** X19. For a body of radius 0 or more the number of particles of its
    shell is not negative, does not go down when the quality goes from
    [LOW] to [MEDIUM] to [HIGH], and is never larger on a mobile
    screen than on a desktop one. *)
Theorem particle_count_monotone (isMobile : bool) (q : ParticleDensity) (data : PlanetData) :
  0 <= radius data ->
  (0 <= particleCount isMobile q data)%Z
  /\ (particleCount isMobile LOW data <= particleCount isMobile MEDIUM data)%Z
  /\ (particleCount isMobile MEDIUM data <= particleCount isMobile HIGH data)%Z
  /\ (particleCount true q data <= particleCount false q data)%Z.
Proof.
  intros H. unfold particleCount.
  split; [|split; [|split]].
  - apply Z.le_trans with (Int_part 0);
      [pose proof (Int_part_INR 0) as Z0; cbn [INR Z.of_nat] in Z0; rewrite Z0; lia|].
    apply Int_part_le. destruct isMobile, q; cbn [multipliers]; nra.
  - apply Int_part_le. destruct isMobile; cbn [multipliers]; nra.
  - apply Int_part_le. destruct isMobile; cbn [multipliers]; nra.
  - apply Int_part_le. destruct q; cbn [multipliers]; nra.
Qed.

Lemma particle_count_monotone_witness :
  0 <= radius (mkPlanet "jupiter" 6.5 150 0.4 0.04 (Some 95%nat) false)
  /\ (particleCount true HIGH (mkPlanet "jupiter" 6.5 150 0.4 0.04 (Some 95%nat) false)
      <= particleCount false HIGH (mkPlanet "jupiter" 6.5 150 0.4 0.04 (Some 95%nat) false))%Z.
Proof.
  assert (H : 0 <= radius (mkPlanet "jupiter" 6.5 150 0.4 0.04 (Some 95%nat) false))
    by (cbn [radius]; lra).
  split; [exact H|].
  exact (proj2 (proj2 (proj2 (particle_count_monotone true HIGH _ H)))).
Defined.

(** ** The frame callback before and after the hand mode *)

(** X20. Outside [HAND] mode the frame callback does what the earlier
    one did, in the [AUTO] branch and in the branch that follows a
    focused body always, and in the last branch when the pointer
    helper is enabled already, as it is in [MOUSE] mode: the hand mode
    changed nothing for the pointer and the autopilot. *)
Theorem frame_as_before_hand_mode
    (controls_update : OrbitControls -> Camera -> Camera)
    (a : AppState) (g : option HandGesture) (elapsed delta : R) (c : Controller) :
  controlMode a <> HAND ->
  (controlMode a <> AUTO -> truthy (focusedBody a) = false ->
   forall ctl, controlsRef c = Some ctl -> enabled ctl = true) ->
  useFrame controls_update a g elapsed delta c
  = useFrame_v1 controls_update a elapsed delta c.
Proof.
  intros M E. unfold useFrame, useFrame_v1.
  destruct (ControlMode_eqb (controlMode a) AUTO) eqn:A; [reflexivity|].
  assert (Hh : ControlMode_eqb (controlMode a) HAND = false).
  { destruct (controlMode a); [reflexivity..|contradiction]. }
  rewrite Hh.
  destruct (truthy (focusedBody a)) eqn:F; [reflexivity|].
  unfold freeFrame. destruct (controlsRef c) as [ctl|] eqn:C; [|reflexivity].
  assert (En : enabled ctl = true).
  { apply E; [|reflexivity|reflexivity]. intros Z. rewrite Z in A. discriminate A. }
  destruct ctl as [t e]. cbn [enabled target] in *. subst e. reflexivity.
Qed.

Lemma frame_as_before_hand_mode_witness :
  controlMode appState_init <> HAND
  /\ useFrame no_update appState_init (Some NONE) 1 (1 / 60) controller_init
     = useFrame_v1 no_update appState_init 1 (1 / 60) controller_init.
Proof.
  assert (M : controlMode appState_init <> HAND) by (intros F; discriminate F).
  split; [exact M|].
  apply (frame_as_before_hand_mode no_update appState_init (Some NONE) 1 (1 / 60)
           controller_init M).
  intros _ _ ctl C. injection C as <-. reflexivity.
Defined.

(** ** The one-hand classifier *)

(** The outcome of a tick of the one-hand classifier, by the branch
    that produced it. *)
Lemma V1_processGestures_cases (now : Z) (st : ClassifierState) (hand : Hand) (out : Tick) :
  V1.processGestures now st hand = Some out ->
  exists thumb tip palm fist,
    nth_error hand 4 = Some thumb
    /\ nth_error hand 8 = Some tip
    /\ V1.isPalmOpen hand = Some palm
    /\ V1.isFist hand = Some fist
    /\ ((palm && negb fist = true
         /\ (now - gestureHoldStart st > 1000)%Z
         /\ out = (mkClassifier (lastHandPos st) (lastPinchDist st) now, Some EXIT_FOCUS))
        \/ (exists hold,
              (hold = now \/ hold = gestureHoldStart st)
              /\ (palm = false -> hold = now)
              /\ ((dist2 thumb tip < 0.05
                   /\ out = V1.pinch st hold (dist2 thumb tip) thumb tip)
                  \/ (0.05 <= dist2 thumb tip
                      /\ exists wrist,
                           nth_error hand 0 = Some wrist
                           /\ out = V1.fistOrPoint st hold fist wrist tip)))).
Proof.
  unfold V1.processGestures.
  destruct (nth_error hand 4) as [thumb|]; cbn [bind]; [|discriminate].
  destruct (nth_error hand 8) as [tip|]; cbn [bind]; [|discriminate].
  destruct (V1.isPalmOpen hand) as [palm|]; cbn [bind]; [|discriminate].
  destruct (V1.isFist hand) as [fist|]; cbn [bind]; [|discriminate].
  intros H. exists thumb, tip, palm, fist. repeat (split; [reflexivity|]).
  destruct (palm && negb fist) eqn:P; cbn [andb] in H.
  - destruct (now - gestureHoldStart st >? 1000)%Z eqn:D.
    + left. injection H as <-. repeat split. apply Z.gtb_lt in D. lia.
    + right. exists (gestureHoldStart st). split; [auto|].
      split; [intros ->; discriminate P|].
      unfold Num.ltb in H. destruct (Rlt_dec (dist2 thumb tip) 0.05) as [L|L].
      * left. injection H as <-. auto.
      * right. split; [lra|].
        destruct (nth_error hand 0) as [wrist|]; cbn [bind] in H; [|discriminate].
        injection H as <-. eauto.
  - right. exists now. split; [auto|]. split; [reflexivity|].
    unfold Num.ltb in H. destruct (Rlt_dec (dist2 thumb tip) 0.05) as [L|L].
    + left. injection H as <-. auto.
    + right. split; [lra|].
      destruct (nth_error hand 0) as [wrist|]; cbn [bind] in H; [|discriminate].
      injection H as <-. eauto.
Qed.

Lemma V1_pinch_frame (st : ClassifierState) (hold : Z) (d : R) (thumb tip : Point2) :
  gestureHoldStart (fst (V1.pinch st hold d thumb tip)) = hold
  /\ snd (V1.pinch st hold d thumb tip) <> Some EXIT_FOCUS
  /\ snd (V1.pinch st hold d thumb tip) <> Some NONE
  /\ (forall v, snd (V1.pinch st hold d thumb tip) = Some (ZOOM v) ->
                lastPinchDist st <> None /\ lastHandPos st <> None /\ Rabs v > 0.05)
  /\ (forall v, snd (V1.pinch st hold d thumb tip) <> Some (ROTATE v)).
Proof.
  unfold V1.pinch.
  destruct (lastPinchDist st) as [last|]; cbn [fst snd gestureHoldStart].
  - destruct (lastHandPos st) as [pos|].
    + destruct (Num.gtb (Rabs (py pos - (py thumb + py tip) / 2)) 0.01) eqn:G.
      * split; [reflexivity|]. split; [discriminate|]. split; [discriminate|].
        split; [|discriminate].
        intros v H. injection H as <-.
        split; [discriminate|]. split; [discriminate|].
        unfold Num.gtb, Num.ltb in G. destruct (Rlt_dec _ _) as [L|]; [|discriminate].
        rewrite Rabs_mult, (Rabs_pos_eq 5) by lra. lra.
      * split; [reflexivity|]. do 3 (split; [discriminate|]). discriminate.
    + split; [reflexivity|]. do 3 (split; [discriminate|]). discriminate.
  - split; [reflexivity|]. do 3 (split; [discriminate|]). discriminate.
Qed.

Lemma V1_fistOrPoint_frame (st : ClassifierState) (hold : Z) (fist : bool)
    (wrist tip : Point2) :
  gestureHoldStart (fst (V1.fistOrPoint st hold fist wrist tip)) = hold
  /\ snd (V1.fistOrPoint st hold fist wrist tip) <> Some EXIT_FOCUS
  /\ snd (V1.fistOrPoint st hold fist wrist tip) <> Some NONE
  /\ (forall v, snd (V1.fistOrPoint st hold fist wrist tip) <> Some (ZOOM v))
  /\ (fist = false ->
      snd (V1.fistOrPoint st hold fist wrist tip)
      = Some (FOCUS (mkPoint2 (1 - px tip) (py tip)))).
Proof.
  unfold V1.fistOrPoint. destruct fist; cbn [fst snd gestureHoldStart].
  - destruct (lastHandPos st) as [last|]; [destruct (_ || _)|];
      (split; [reflexivity|]); do 3 (split; [discriminate|]); discriminate.
  - split; [reflexivity|]. do 3 (split; [discriminate|]). reflexivity.
Qed.

(** What a tick of the one-hand classifier does to the hold timer. *)
Lemma V1_predictWebcam_hold (now : Z) (st st' : ClassifierState)
    (landmarks : list Hand) (ev : option HandGesture) :
  V1.predictWebcam true now st landmarks = Some (st', ev) ->
  (gestureHoldStart st' = gestureHoldStart st \/ gestureHoldStart st' = now)
  /\ (ev = Some EXIT_FOCUS ->
      (now - gestureHoldStart st > 1000)%Z /\ gestureHoldStart st' = now)
  /\ (forall hand rest, landmarks = hand :: rest -> V1.isPalmOpen hand = Some false ->
                        gestureHoldStart st' = now /\ ev <> Some EXIT_FOCUS).
Proof.
  unfold V1.predictWebcam. cbn [negb]. destruct landmarks as [|hand rest].
  - intros H. injection H as <- <-. split; [left; reflexivity|].
    split; [discriminate|]. intros ? ? E. discriminate E.
  - intros H.
    destruct (V1_processGestures_cases _ _ _ _ H)
      as (thumb & tip & palm & fist & _ & _ & Pm & _ & Cases).
    destruct Cases as [(Pt & D & E) | (hold & Hh & Hp & Br)].
    + injection E as -> ->. cbn [gestureHoldStart].
      split; [right; reflexivity|]. split; [auto|].
      intros h r E F. injection E as <- <-. rewrite Pm in F. injection F as ->.
      discriminate Pt.
    + assert (S : gestureHoldStart st' = hold /\ ev <> Some EXIT_FOCUS).
      { destruct Br as [(_ & E) | (_ & wrist & _ & E)];
          pose proof (f_equal fst E) as E1; pose proof (f_equal snd E) as E2;
          cbn [fst snd] in E1, E2; rewrite E1, E2.
        - pose proof (V1_pinch_frame st hold (dist2 thumb tip) thumb tip). tauto.
        - pose proof (V1_fistOrPoint_frame st hold fist wrist tip). tauto. }
      destruct S as [Sh Se]. rewrite Sh.
      split; [destruct Hh as [-> | ->]; auto|].
      split; [intros E; contradiction|].
      intros h r E F. injection E as <- <-. rewrite Pm in F. injection F as ->.
      split; [apply Hp; reflexivity | exact Se].
Qed.

Lemma V1_classify_after (samples : list (Z * list Hand)) :
  forall (st : ClassifierState) (t0 : Z),
    (t0 <= gestureHoldStart st)%Z ->
    Forall (fun s => (t0 <= fst s)%Z) samples ->
    forall j t, nth_error (V1.classify st samples) j = Some (t, Some EXIT_FOCUS) ->
                (t - t0 > 1000)%Z.
Proof.
  induction samples as [|[now landmarks] rest IH]; intros st t0 Hst Hall j t Hj.
  - destruct j; discriminate Hj.
  - cbn [V1.classify] in Hj.
    destruct (V1.predictWebcam true now st landmarks) as [[st' ev]|] eqn:E;
      [|destruct j; discriminate Hj].
    inversion Hall as [|? ? Hnow Hrest]; subst. cbn [fst] in Hnow.
    destruct (V1_predictWebcam_hold _ _ _ _ _ E) as (Hh & He & _).
    destruct j as [|j]; cbn [nth_error] in Hj.
    + injection Hj as -> ->. destruct (He eq_refl) as [T _]. lia.
    + apply (IH st' t0) with (j := j); [|exact Hrest|exact Hj].
      destruct Hh as [-> | ->]; lia.
Qed.

(** X21. In the one-hand classifier every tick that shows a hand
    without the open palm restarts the hold timer, so [EXIT_FOCUS]
    needs the palm on every sample of the last second: in a run with
    timestamps that never decrease, an [EXIT_FOCUS] comes more than
    1000 ms after every earlier sample that showed a hand in another
    pose. *)
Theorem v1_exit_needs_continuous_palm (samples : list (Z * list Hand)) :
  forall (st : ClassifierState) (k j : nat) (tk tj : Z) (hand : Hand) (rest : list Hand),
    StronglySorted Z.le (map fst samples) ->
    (k < j)%nat ->
    nth_error samples k = Some (tk, hand :: rest) ->
    V1.isPalmOpen hand = Some false ->
    nth_error (V1.classify st samples) j = Some (tj, Some EXIT_FOCUS) ->
    (tj - tk > 1000)%Z.
Proof.
  induction samples as [|[now landmarks] more IH];
    intros st k j tk tj hand rest Hs Hkj Hk Hp Hj.
  - destruct k; discriminate Hk.
  - cbn [V1.classify] in Hj.
    destruct (V1.predictWebcam true now st landmarks) as [[st' ev]|] eqn:E;
      [|destruct j; discriminate Hj].
    cbn [map fst] in Hs. inversion Hs as [|? ? Hs' Hle]; subst.
    destruct j as [|j]; [lia|]. cbn [nth_error] in Hj.
    destruct k as [|k]; cbn [nth_error] in Hk.
    + injection Hk as -> ->.
      destruct (V1_predictWebcam_hold _ _ _ _ _ E) as (_ & _ & Hn).
      destruct (Hn hand rest eq_refl Hp) as [Hh _].
      apply (V1_classify_after more st' tk) with (j := j); [lia| |exact Hj].
      rewrite Forall_map in Hle. exact Hle.
    + apply (IH st' k j tk tj hand rest Hs'); [lia|exact Hk|exact Hp|exact Hj].
Qed.

Lemma V1_pose_fingers (w : Point2) (i m r p : bool) :
  V1.isPalmOpen (poseHand w i m r p) = Some (i && (m && (r && p)))
  /\ V1.isFist (poseHand w i m r p) = Some (negb i && (negb m && (negb r && negb p))).
Proof.
  assert (T : forall b : bool, Num.ltb (if b then 0.2 else 0.8) 0.5 = b).
  { intros [|]; [apply ltb_true | apply ltb_false]; lra. }
  assert (G : forall b : bool, Num.gtb (if b then 0.2 else 0.8) 0.5 = negb b).
  { intros [|]; [apply gtb_false | apply gtb_true]; lra. }
  unfold V1.isPalmOpen, V1.isFist, V1.above, V1.below, poseHand.
  cbn [nth_error bind py]. rewrite !T, !G. unfold V1.andAlso. cbn [bind].
  destruct i, m, r, p; split; reflexivity.
Qed.

Lemma pose_tips_apart (x : R) (b : bool) :
  Num.ltb (dist2 (mkPoint2 x 0.5) (mkPoint2 x (if b then 0.2 else 0.8))) 0.05 = false.
Proof.
  apply ltb_false. unfold dist2. cbn [px py].
  assert (E : (x - x) ^ 2 + (0.5 - (if b then 0.2 else 0.8)) ^ 2 = Rsqr 0.3).
  { unfold Rsqr. destruct b; lra. }
  rewrite E, sqrt_Rsqr; lra.
Qed.

(** The one-hand classifier on a posed hand. *)
Lemma V1_predictWebcam_pose (now : Z) (st : ClassifierState) (w : Point2) (i m r p : bool) :
  V1.predictWebcam true now st [poseHand w i m r p]
  = Some
      (if i && (m && (r && p)) && (now - gestureHoldStart st >? 1000)%Z
       then (mkClassifier (lastHandPos st) (lastPinchDist st) now, Some EXIT_FOCUS)
       else V1.fistOrPoint st
              (if i && (m && (r && p)) then gestureHoldStart st else now)
              (negb i && (negb m && (negb r && negb p)))
              w (mkPoint2 (px w) (if i then 0.2 else 0.8))).
Proof.
  unfold V1.predictWebcam, V1.processGestures. cbn [negb].
  destruct (V1_pose_fingers w i m r p) as [-> ->].
  unfold poseHand at 1 2 3. cbn [nth_error bind].
  rewrite pose_tips_apart.
  destruct i, m, r, p; cbn [andb negb]; try reflexivity.
  destruct (now - gestureHoldStart st >? 1000)%Z; reflexivity.
Qed.

Lemma v1_exit_needs_continuous_palm_witness :
  StronglySorted Z.le
    (map fst [(5000%Z, [fist]); (5600%Z, [openPalm]); (6700%Z, [openPalm])])
  /\ nth_error [(5000%Z, [fist]); (5600%Z, [openPalm]); (6700%Z, [openPalm])] 0
     = Some (5000%Z, [fist])
  /\ V1.isPalmOpen fist = Some false
  /\ nth_error (V1.classify classifier_init
                  [(5000%Z, [fist]); (5600%Z, [openPalm]); (6700%Z, [openPalm])]) 2
     = Some (6700%Z, Some EXIT_FOCUS)
  /\ (6700 - 5000 > 1000)%Z.
Proof.
  assert (S : StronglySorted Z.le
                (map fst [(5000%Z, [fist]); (5600%Z, [openPalm]); (6700%Z, [openPalm])])).
  { cbn [map fst]. repeat constructor; lia. }
  assert (P : V1.isPalmOpen fist = Some false) by apply V1_pose_fingers.
  assert (C : nth_error (V1.classify classifier_init
                  [(5000%Z, [fist]); (5600%Z, [openPalm]); (6700%Z, [openPalm])]) 2
              = Some (6700%Z, Some EXIT_FOCUS)).
  { unfold fist, openPalm, classifier_init. cbn [V1.classify].
    rewrite V1_predictWebcam_pose. cbn [andb negb gestureHoldStart].
    unfold V1.fistOrPoint at 1. cbn [lastHandPos].
    cbn [V1.classify]. rewrite V1_predictWebcam_pose. cbn [andb negb gestureHoldStart].
    change (5600 - 5000 >? 1000)%Z with false. cbv iota.
    unfold V1.fistOrPoint at 1.
    cbn [V1.classify]. rewrite V1_predictWebcam_pose. cbn [andb negb gestureHoldStart].
    change (6700 - 5000 >? 1000)%Z with true. cbv iota.
    reflexivity. }
  split; [exact S|]. split; [reflexivity|]. split; [exact P|]. split; [exact C|].
  exact (v1_exit_needs_continuous_palm _ classifier_init 0 2 5000 6700 fist [] S
           ltac:(lia) eq_refl P C).
Defined.

(** X22. The one-hand classifier emits [ZOOM] only on a pinch (thumb
    and index tips closer than 0.05) that finds a pinch distance and a
    hand position stored by an earlier tick, so the first tick of a
    pinch never zooms; the value is 5 times the vertical movement of
    the pinch point and is above 0.05 in magnitude. *)
Theorem v1_zoom_needs_armed_pinch (now : Z) (st st' : ClassifierState)
    (landmarks : list Hand) (value : R) :
  V1.predictWebcam true now st landmarks = Some (st', Some (ZOOM value)) ->
  (exists hand rest thumb tip pos,
      landmarks = hand :: rest
      /\ nth_error hand 4 = Some thumb
      /\ nth_error hand 8 = Some tip
      /\ dist2 thumb tip < 0.05
      /\ lastHandPos st = Some pos
      /\ value = (py pos - (py thumb + py tip) / 2) * 5)
  /\ lastPinchDist st <> None
  /\ lastPinchDist st' = lastPinchDist st
  /\ Rabs value > 0.05.
Proof.
  unfold V1.predictWebcam. cbn [negb]. destruct landmarks as [|hand rest]; [discriminate|].
  intros H.
  destruct (V1_processGestures_cases _ _ _ _ H)
    as (thumb & tip & palm & fist & T4 & T8 & _ & _ & Cases).
  destruct Cases as [(_ & _ & E) | (hold & _ & _ & Br)]; [discriminate E|].
  destruct Br as [(D & E) | (_ & wrist & _ & E)].
  - pose proof (f_equal fst E) as E1. pose proof (f_equal snd E) as E2.
    cbn [fst snd] in E1, E2.
    destruct (V1_pinch_frame st hold (dist2 thumb tip) thumb tip) as (_ & _ & _ & Z & _).
    destruct (Z value (eq_sym E2)) as (Zp & Zh & Zv).
    unfold V1.pinch in E1, E2.
    destruct (lastPinchDist st) as [last|]; [|contradiction].
    destruct (lastHandPos st) as [pos|]; [|contradiction].
    cbn [fst snd] in E1, E2.
    split; [|split; [discriminate|split; [rewrite E1; reflexivity | exact Zv]]].
    exists hand, rest, thumb, tip, pos. repeat (split; [reflexivity || assumption|]).
    destruct (Num.gtb _ 0.01); [|discriminate E2]. injection E2 as ->. reflexivity.
  - exfalso. pose proof (f_equal snd E) as E2. cbn [fst snd] in E2.
    destruct (V1_fistOrPoint_frame st hold fist wrist tip) as (_ & _ & _ & Z & _).
    apply (Z value). rewrite <- E2. reflexivity.
Qed.

Lemma pinchHand_tick (now : Z) (st : ClassifierState) (y : R) :
  V1.predictWebcam true now st [pinchHand y]
  = Some (V1.pinch st now (dist2 (mkPoint2 0.5 y) (mkPoint2 0.5 y))
                   (mkPoint2 0.5 y) (mkPoint2 0.5 y)).
Proof.
  unfold V1.predictWebcam, V1.processGestures, V1.isPalmOpen, V1.isFist,
    V1.above, V1.below, pinchHand.
  cbn [negb repeat nth_error bind py].
  rewrite (ltb_false y y), (gtb_false y y) by lra.
  unfold V1.andAlso. cbn [bind andb].
  assert (D : dist2 (mkPoint2 0.5 y) (mkPoint2 0.5 y) = 0).
  { unfold dist2. cbn [px py].
    replace ((0.5 - 0.5) ^ 2 + (y - y) ^ 2) with 0 by ring. apply sqrt_0. }
  rewrite D, ltb_true by lra. reflexivity.
Qed.

Lemma v1_zoom_needs_armed_pinch_witness :
  V1.predictWebcam true 40 (mkClassifier (Some (mkPoint2 0.5 0.6)) (Some 0.01) 0)
                   [pinchHand 0.5]
  = Some (mkClassifier (Some (mkPoint2 ((0.5 + 0.5) / 2) ((0.5 + 0.5) / 2))) (Some 0.01) 40,
          Some (ZOOM ((0.6 - (0.5 + 0.5) / 2) * 5)))
  /\ Rabs ((0.6 - (0.5 + 0.5) / 2) * 5) > 0.05.
Proof.
  assert (A : V1.predictWebcam true 40
                (mkClassifier (Some (mkPoint2 0.5 0.6)) (Some 0.01) 0) [pinchHand 0.5]
              = Some (mkClassifier (Some (mkPoint2 ((0.5 + 0.5) / 2) ((0.5 + 0.5) / 2)))
                                   (Some 0.01) 40,
                      Some (ZOOM ((0.6 - (0.5 + 0.5) / 2) * 5)))).
  { rewrite pinchHand_tick. unfold V1.pinch. cbn [lastPinchDist lastHandPos px py].
    rewrite gtb_true by solve_abs. reflexivity. }
  split; [exact A|].
  exact (proj2 (proj2 (proj2 (v1_zoom_needs_armed_pinch 40 _ _ _ _ A)))).
Defined.

(** X23. In the one-hand classifier a tick that shows a hand whose
    thumb and index tips are 0.05 or more apart and which is not a
    fist always emits a gesture: [EXIT_FOCUS], or [FOCUS] with the
    index tip mirrored in [x]. The open palm that is not held long
    enough yet points like any other pose. With a hand in view no
    tick emits [NONE]. *)
Theorem v1_points_by_default (now : Z) (st st' : ClassifierState)
    (hand : Hand) (rest : list Hand) (ev : option HandGesture) :
  V1.predictWebcam true now st (hand :: rest) = Some (st', ev) ->
  ev <> Some NONE
  /\ (forall thumb tip,
        nth_error hand 4 = Some thumb ->
        nth_error hand 8 = Some tip ->
        0.05 <= dist2 thumb tip ->
        V1.isFist hand = Some false ->
        ev = Some EXIT_FOCUS \/ ev = Some (FOCUS (mkPoint2 (1 - px tip) (py tip)))).
Proof.
  unfold V1.predictWebcam. cbn [negb]. intros H.
  destruct (V1_processGestures_cases _ _ _ _ H)
    as (thumb & tip & palm & fist & T4 & T8 & _ & Fs & Cases).
  destruct Cases as [(_ & _ & E) | (hold & _ & _ & Br)].
  - injection E as _ ->. split; [discriminate|]. intros; left; reflexivity.
  - destruct Br as [(D & E) | (D & wrist & _ & E)];
      pose proof (f_equal snd E) as E2; cbn [snd] in E2; rewrite E2.
    + split; [apply V1_pinch_frame|].
      intros thumb' tip' A4 A8 Far _. rewrite T4 in A4. rewrite T8 in A8.
      injection A4 as <-. injection A8 as <-. lra.
    + split; [apply V1_fistOrPoint_frame|].
      intros thumb' tip' A4 A8 _ Nf. rewrite T8 in A8. injection A8 as <-.
      rewrite Fs in Nf. injection Nf as ->. right.
      apply V1_fistOrPoint_frame. reflexivity.
Qed.

Lemma v1_points_by_default_witness :
  V1.predictWebcam true 500 classifier_init [openPalm]
  = Some (mkClassifier (Some (mkPoint2 0.5 0.9)) None 0,
          Some (FOCUS (mkPoint2 (1 - 0.5) 0.2)))
  /\ Some (FOCUS (mkPoint2 (1 - 0.5) 0.2)) <> Some NONE.
Proof.
  assert (A : V1.predictWebcam true 500 classifier_init [openPalm]
              = Some (mkClassifier (Some (mkPoint2 0.5 0.9)) None 0,
                      Some (FOCUS (mkPoint2 (1 - 0.5) 0.2)))).
  { unfold openPalm. rewrite V1_predictWebcam_pose. reflexivity. }
  split; [exact A|].
  exact (proj1 (v1_points_by_default 500 _ _ _ _ _ A)).
Defined.

(** ** Two more facts about the two-hand classifier and the frame *)

(** X24. The hold timer of the two-hand classifier is left as it is by
    a tick with no hand, by a tick with two hands and by a tick that
    shows the peace sign: none of them restarts the 1000 ms of the open
    palm. *)
Theorem hold_timer_untouched (now : Z) (st st' : ClassifierState)
    (landmarksList : list Hand) (ev : option HandGesture) :
  predictWebcam true now st landmarksList = Some (st', ev) ->
  landmarksList = []
  \/ List.length landmarksList = 2%nat
  \/ (exists hand, singleHandOf landmarksList = Some hand /\ isVictory hand = true) ->
  gestureHoldStart st' = gestureHoldStart st /\ ev <> Some EXIT_FOCUS.
Proof.
  intros H [-> | [L | (hand & S & V)]].
  - injection H as <- <-. split; [reflexivity | discriminate].
  - unfold predictWebcam in H. cbn [negb] in H. rewrite L in H.
    cbn [Nat.ltb Nat.leb] in H.
    destruct (processGestures_length2 _ _ _ _ L H) as (w1 & w2 & E).
    pose proof (f_equal fst E) as E1. pose proof (f_equal snd E) as E2.
    cbn [fst snd] in E1, E2. rewrite E1, E2. unfold twoHandZoom. cbn [fst snd].
    split; [reflexivity|].
    destruct (lastPinchDist st); [destruct (Num.gtb _ _)|]; discriminate.
  - rewrite (predictWebcam_hands _ _ _ _ S) in H.
    destruct (processGestures_single _ _ _ _ _ S H) as (i & m & r & p & wrist & tip & F & E).
    unfold isVictory in V. rewrite F in V.
    pose proof (f_equal fst E) as E1. pose proof (f_equal snd E) as E2.
    cbn [fst snd] in E1, E2. rewrite E1, E2. unfold singleHand. rewrite V. cbn [fst snd].
    split; [reflexivity|].
    destruct (lastHandPos st); [destruct (_ || _)|]; discriminate.
Qed.

Lemma hold_timer_untouched_witness :
  predictWebcam true 6500 (mkClassifier (Some (mkPoint2 0.5 0.9)) None 5000) [victory]
  = Some (singleHand 6500 (mkClassifier (Some (mkPoint2 0.5 0.9)) None 5000)
                     true true false false (mkPoint2 0.5 0.9) (mkPoint2 0.5 0.2))
  /\ gestureHoldStart
       (fst (singleHand 6500 (mkClassifier (Some (mkPoint2 0.5 0.9)) None 5000)
                        true true false false (mkPoint2 0.5 0.9) (mkPoint2 0.5 0.2)))
     = 5000%Z.
Proof.
  assert (A : predictWebcam true 6500
                (mkClassifier (Some (mkPoint2 0.5 0.9)) None 5000) [victory]
              = Some (singleHand 6500 (mkClassifier (Some (mkPoint2 0.5 0.9)) None 5000)
                                 true true false false (mkPoint2 0.5 0.9) (mkPoint2 0.5 0.2)))
    by apply predictWebcam_pose.
  assert (V : isVictory victory = true).
  { unfold isVictory, victory. rewrite fingerStates_pose. reflexivity. }
  split; [exact A|].
  exact (proj1 (hold_timer_untouched 6500 _ _ _ _ A
                  (or_intror (or_intror (ex_intro _ victory (conj eq_refl V)))))).
Defined.


